(** * Sunburn Monitor: the device controller, embedded and verified

    A shallow embedding of the Arduino sketch of the Sunburn Monitor (the
    later variant: three buttons, EEPROM write avoidance, bandgap voltage
    check).  Globals of the sketch become the fields of [Device]; calls to
    the external collaborators (tone generator, EEPROM, sensor, pins,
    watchdog, sleep) append to an effect trace; everything the sketch reads
    from the outside (debounced buttons, [millis()], the sensor, the supply
    voltage, the interrupt that ends a sleep) is an explicit input.

    Machine integers are [Z] with the wrap-around written out; the
    [float minutesToBurn] is an IEEE-754 binary32 value of the standard
    library's [SpecFloat]; the EEPROM is a finite map whose absent cells
    read as the erased byte 0xFF.  Register-level detail with no bearing
    on the controller (pin modes, the debouncer's set-up, the ADC
    settings saved around a sleep) is left out. *)

From Stdlib Require Import ZArith List Bool Lia.
From Stdlib Require SpecFloat.
From stdpp Require Import base option list gmap.

Local Open Scope Z_scope.

(** ** Machine integers *)

Definition wrap (bits x : Z) : Z := x mod 2 ^ bits.
Definition u8 : Z -> Z := wrap 8.
Definition u16 : Z -> Z := wrap 16.
Definition u32 : Z -> Z := wrap 32.

(** ** binary32 arithmetic of [float] *)

Module F32.
Definition prec : Z := 24.
Definition emax : Z := 128.
Definition float : Type := SpecFloat.spec_float.
Definition zero : float := SpecFloat.S754_zero false.
Definition of_Z (z : Z) : float := SpecFloat.binary_normalize prec emax z 0 false.
Definition sub : float -> float -> float := SpecFloat.SFsub prec emax.
Definition mul : float -> float -> float := SpecFloat.SFmul prec emax.
Definition div : float -> float -> float := SpecFloat.SFdiv prec emax.
Definition leb : float -> float -> bool := SpecFloat.SFleb.
End F32.

(** ** Constants of the sketch *)

Definition EE_CHECKBYTE_1 : Z := 125.
Definition EE_CHECKBYTE_2 : Z := 126.
Definition EE_SKIN_TYPE : Z := 127.

Definition SET_TIMEOUT : Z := 30000.
Definition MAX_ALARM_TIME : Z := 15000.
Definition ALARM_PAUSE_TIME : Z := 500.
Definition MAX_RUNNING_TIME : Z := 720.
Definition WDT_SLEEP_CYCLES : Z := 15.
Definition MIN_BATT_VOLTS : Z := 270.
Definition LONG_CLICK_MS : Z := 1000.

Definition NOTE_C4 : Z := 262.
Definition NOTE_G4 : Z := 392.
Definition NOTE_C5 : Z := 523.
Definition NOTE_D5 : Z := 587.
Definition NOTE_G5 : Z := 784.
Definition NOTE_B5 : Z := 988.
Definition NOTE_C6 : Z := 1047.
Definition NOTE_D6 : Z := 1175.
Definition NOTE_G6 : Z := 1568.
Definition NOTE_C7 : Z := 2093.
Definition NOTE_A7 : Z := 3520.

Definition ON_OFF_PIN : Z := 2.
Definition SKIN_PIN : Z := 3.
Definition SET_PIN : Z := 4.
Definition UV_SENSOR_PWR_PIN : Z := 5.

(** Pin levels. *)
Definition LOW : bool := false.
Definition HIGH : bool := true.

(** [static uint16_t skinTypeMinutesPerUVI[6]] and
    [static uint8_t pressesPerSPF[6]]. *)
Definition skinTypeMinutesPerUVI : list Z := [0; 67; 100; 200; 400; 500].
Definition pressesPerSPF : list Z := [0; 1; 10; 15; 30; 45].

(** The table of the sketch's header comment (skin types I to VI), kept to
    compare the array with the documentation it comes with. *)
Definition documentedMinutesPerUVI : list (Z * Z) :=
  [(1, 67); (2, 100); (3, 200); (4, 300); (5, 400); (6, 500)].

(** Reading a C array: [None] past its end, where C leaves the read
    undefined. *)
Definition array_read (table : list Z) (i : Z) : option Z :=
  if i <? 0 then None else nth_error table (Z.to_nat i).

(** ** Device state *)

Inductive State := STATE_POWER_OFF | STATE_CONFIG | STATE_RUNNING | STATE_COMPLETED.

#[global] Instance State_eq_dec : EqDecision State.
Proof. solve_decision. Defined.

(** Calls that leave the processor, in program order. *)
Inductive Effect :=
| ToneAC (frequency volume len : Z) (background : bool)
| Delay (ms : Z)
| PinWrite (pin : Z) (level : bool)
| EEWrite (addr val : Z)
| ReadVcc
| UvBegin
| ReadUV
| WdtEnable
| WdtDisable
| AttachInt0
| DetachInt0
| Sleep.

#[global] Instance Effect_eq_dec : EqDecision Effect.
Proof. solve_decision. Defined.

Record Device := mkDevice {
  state : State;
  setTimer : Z;
  buttonTime : Z;
  runningTimer : Z;
  skinType : Z;
  minutesToBurn : F32.float;
  wdtSleepCount : Z;
  vccVoltage : Z;
  eeprom : gmap Z Z;
  trace : list Effect
}.

Definition set_state (v : State) (d : Device) : Device :=
  mkDevice v (setTimer d) (buttonTime d) (runningTimer d) (skinType d)
           (minutesToBurn d) (wdtSleepCount d) (vccVoltage d) (eeprom d) (trace d).
Definition set_setTimer (v : Z) (d : Device) : Device :=
  mkDevice (state d) v (buttonTime d) (runningTimer d) (skinType d)
           (minutesToBurn d) (wdtSleepCount d) (vccVoltage d) (eeprom d) (trace d).
Definition set_buttonTime (v : Z) (d : Device) : Device :=
  mkDevice (state d) (setTimer d) v (runningTimer d) (skinType d)
           (minutesToBurn d) (wdtSleepCount d) (vccVoltage d) (eeprom d) (trace d).
Definition set_runningTimer (v : Z) (d : Device) : Device :=
  mkDevice (state d) (setTimer d) (buttonTime d) v (skinType d)
           (minutesToBurn d) (wdtSleepCount d) (vccVoltage d) (eeprom d) (trace d).
Definition set_skinType (v : Z) (d : Device) : Device :=
  mkDevice (state d) (setTimer d) (buttonTime d) (runningTimer d) v
           (minutesToBurn d) (wdtSleepCount d) (vccVoltage d) (eeprom d) (trace d).
Definition set_minutesToBurn (v : F32.float) (d : Device) : Device :=
  mkDevice (state d) (setTimer d) (buttonTime d) (runningTimer d) (skinType d)
           v (wdtSleepCount d) (vccVoltage d) (eeprom d) (trace d).
Definition set_wdtSleepCount (v : Z) (d : Device) : Device :=
  mkDevice (state d) (setTimer d) (buttonTime d) (runningTimer d) (skinType d)
           (minutesToBurn d) v (vccVoltage d) (eeprom d) (trace d).
Definition set_vccVoltage (v : Z) (d : Device) : Device :=
  mkDevice (state d) (setTimer d) (buttonTime d) (runningTimer d) (skinType d)
           (minutesToBurn d) (wdtSleepCount d) v (eeprom d) (trace d).
Definition set_eeprom (v : gmap Z Z) (d : Device) : Device :=
  mkDevice (state d) (setTimer d) (buttonTime d) (runningTimer d) (skinType d)
           (minutesToBurn d) (wdtSleepCount d) (vccVoltage d) v (trace d).

(** Append effects to the trace. *)
Definition emit (es : list Effect) (d : Device) : Device :=
  mkDevice (state d) (setTimer d) (buttonTime d) (runningTimer d) (skinType d)
           (minutesToBurn d) (wdtSleepCount d) (vccVoltage d) (eeprom d) (trace d ++ es).

(** How a call into the sketch ends.  [Hang]: stuck for ever in a
    [while(1)]; [Fault]: an array was read past its end; [More]: the inputs
    supplied so far are used up and the function is still looping.  Each
    carries the device as it is at that point. *)
Inductive Result :=
| Ok (d : Device)
| Hang (d : Device)
| Fault (d : Device)
| More (d : Device).

Definition bind (r : Result) (k : Device -> Result) : Result :=
  match r with Ok d => k d | _ => r end.

Notation "'call' d <- r 'in' k" := (bind r (fun d => k))
  (at level 10, d name, r at level 100, k at level 200).

(** The device a call stopped in, however it stopped. *)
Definition reached (r : Result) : Device :=
  match r with Ok d | Hang d | Fault d | More d => d end.

(** ** The persistent byte store *)

Definition EEPROM_read (a : Z) (d : Device) : Z := default 255 (eeprom d !! a).

Definition EEPROM_write (a v : Z) (d : Device) : Device :=
  emit [EEWrite a (u8 v)] (set_eeprom (<[a := u8 v]> (eeprom d)) d).

(** The writes to the store recorded in a trace, oldest first. *)
Definition eeWrites (t : list Effect) : list (Z * Z) :=
  omap (fun e => match e with EEWrite a v => Some (a, v) | _ => None end) t.

(** ** Alarm/feedback player *)

Definition playStartup : list Effect :=
  [ToneAC NOTE_C4 10 150 false; ToneAC NOTE_G4 10 150 false; ToneAC NOTE_C5 10 150 false;
   ToneAC NOTE_G5 10 150 false; ToneAC NOTE_C6 10 150 false; ToneAC 0 10 0 false].

Definition playShutdown : list Effect :=
  [ToneAC NOTE_C6 10 150 false; ToneAC NOTE_G5 10 150 false; ToneAC NOTE_C5 10 150 false;
   ToneAC NOTE_G4 10 150 false; ToneAC NOTE_C4 10 150 false; ToneAC 0 10 0 false].

Definition playStart : list Effect :=
  [ToneAC NOTE_D5 10 150 false; ToneAC NOTE_G6 10 150 false; ToneAC NOTE_B5 10 150 false;
   ToneAC NOTE_D6 10 250 false; ToneAC NOTE_B5 10 150 false; ToneAC NOTE_D6 10 500 false;
   ToneAC 0 10 0 false].

Definition shortBeep : list Effect :=
  [ToneAC NOTE_A7 10 10 true; ToneAC 0 10 0 false].

(** The tone of the low-battery branch of the sampling cycle. *)
Definition lowBatteryTone : list Effect := [ToneAC NOTE_C4 10 150 true].

Fixpoint beeps (n : nat) (freq : Z) : list Effect :=
  match n with
  | O => []
  | S n => ToneAC freq 10 75 false :: Delay 150 :: beeps n freq
  end.

(** [countBeep(byte count, unsigned long freq)]. *)
Definition countBeep (count freq : Z) : list Effect := beeps (Z.to_nat count) freq.

(** One round of [playAlarm]: the value of [millis()] at the loop test,
    the step of the frequency sweep at which a press of the power button
    is seen (if any) and whether one is seen during the pause.  The pause
    loop makes no call but to the button and the clock, so only its
    outcome is kept. *)
Record AlarmRound := mkAlarmRound {
  t_round : Z;
  sweep_press : option nat;
  pause_press : bool
}.

(** [for (freq = 500; freq <= 3000; freq += 10)]: 251 steps of
    [toneAC(freq); delay(1)], left at the step where a press is seen. *)
Definition sweep (stop : option nat) : list Effect :=
  let steps := match stop with
               | Some k => Nat.min (S k) 251
               | None => 251%nat
               end in
  flat_map (fun k => [ToneAC (500 + 10 * Z.of_nat k) 10 0 false; Delay 1]) (seq 0 steps).

Definition sweep_pressed (stop : option nat) : bool :=
  match stop with
  | Some k => (k <? 251)%nat
  | None => false
  end.

Fixpoint alarm_rounds (t_start : Z) (rounds : list AlarmRound) (d : Device) : Result :=
  match rounds with
  | [] => More d
  | r :: rounds =>
      if u32 (t_round r - t_start) <? MAX_ALARM_TIME then
        let d := emit (sweep (sweep_press r) ++ [ToneAC 0 10 0 false]) d in
        if sweep_pressed (sweep_press r) || pause_press r then Ok d
        else alarm_rounds t_start rounds d
      else Ok d
  end.

Definition playAlarm (t_start : Z) (rounds : list AlarmRound) (d : Device) : Result :=
  alarm_rounds t_start rounds d.

(** ** Exposure model *)

(** [minutesToBurn = skinTypeMinutesPerUVI[skinType] * uint16_t(pressesPerSPF[index])]:
    a 16-bit unsigned product, then converted to [float]. *)
Definition calculateTimeToBurn (index : Z) (d : Device) : option Device :=
  m ← array_read skinTypeMinutesPerUVI (skinType d);
  spf ← array_read pressesPerSPF index;
  Some (set_minutesToBurn (F32.of_Z (u16 (m * u16 spf))) d).

(** The calls [doMeasure()] makes around its reading. *)
Definition measureEffects : list Effect :=
  [PinWrite UV_SENSOR_PWR_PIN LOW; Delay 200; UvBegin; Delay 100; ReadUV;
   PinWrite UV_SENSOR_PWR_PIN HIGH].

(** [doMeasure()]: power the sensor, read the raw index (a [uint16_t],
    scaled by 100), divide by 100.0 and charge [1 * UVindex] to the
    budget. *)
Definition doMeasure (raw : Z) (d : Device) : Device :=
  let d := emit measureEffects d in
  let UVindex := F32.div (F32.of_Z (u16 raw)) (F32.of_Z 100) in
  set_minutesToBurn (F32.sub (minutesToBurn d) (F32.mul (F32.of_Z 1) UVindex)) d.

(** ** Power controller *)

Inductive Interrupt := WDT_vect | INT0_vect.

(** The handlers: [ISR(WDT_vect)] and [pin2_isr]. *)
Definition isr (i : Interrupt) (d : Device) : Device :=
  match i with
  | WDT_vect => set_wdtSleepCount (u8 (wdtSleepCount d + 1)) d
  | INT0_vect => emit [DetachInt0] d
  end.

(** [sleepNow()]: halt until an interrupt; its handler runs, then the
    call returns. *)
Definition sleepNow (i : Interrupt) (d : Device) : Device :=
  isr i (emit [Sleep] d).

(** ** Supply voltage *)

(** Conversion of a [long] to the 16-bit [int] of the target. *)
Definition to_int16 (x : Z) : Z :=
  let m := x mod 2 ^ 16 in
  if m <? 2 ^ 15 then m else m - 2 ^ 16.

(** [InternalReferenceVoltage] of the 168/328 branch, the boards the
    sketch is written for. *)
Definition InternalReferenceVoltage : Z := 1056.

(** [getBandgap()], as a function of the conversion result read from the
    10-bit [ADC] register:
    [int results = (((InternalReferenceVoltage * 1023L) / ADC) + 5L) / 10L].
    A reading of 0 divides by zero: [None]. *)
Definition getBandgap (adc : Z) : option Z :=
  if adc =? 0 then None
  else Some (to_int16 (((InternalReferenceVoltage * 1023) / adc + 5) / 10)).

(** ** Debounced buttons *)

(** What one [if (b.update()) { if (b.read() == LOW) ... } }] of the power
    button sees.  [Quiet]: no edge; [Released]: an edge to HIGH;
    [Pressed t_down up]: an edge to LOW, [millis()] returning [t_down] for
    [buttonTime]; the hold loop then either never ends ([up = None]) or
    ends and [millis()] returns [t_up] for the click-length test. *)
Inductive Button :=
| Quiet
| Released
| Pressed (t_down : Z) (up : option Z).

(** The set button in [doConfig]: two more readings of [millis()], those
    stored in [setTimer] at the press and at the release. *)
Inductive SetButton :=
| SetQuiet
| SetReleased
| SetPressed (t_press t_down : Z) (up : option (Z * Z)).

(** The skin button in [doConfig]; [t_press] goes to [setTimer]. *)
Inductive SkinButton :=
| SkinQuiet
| SkinReleased
| SkinPressed (t_press : Z).

Inductive PowerCheck :=
| Stay (d : Device)
| Off (d : Device)
| Stuck (d : Device).

(** The long-press test of the power button, as written twice in the
    running case of [loop]. *)
Definition checkPowerButton (b : Button) (d : Device) : PowerCheck :=
  match b with
  | Quiet | Released => Stay d
  | Pressed t_down up =>
      let d := set_buttonTime t_down d in
      match up with
      | None => Stuck d
      | Some t_up =>
          if u32 (t_up - buttonTime d) <? LONG_CLICK_MS then Stay d else Off d
      end
  end.

(** ** Configuration *)

(** The locals of [doConfig]. *)
Record Locals := mkLocals {
  spfIndex : Z;
  tempSkinType : Z;
  skinTypeNotPressed : bool
}.

(** One pass of the [while] loop of [doConfig]: [millis()] at the loop
    test, then the two buttons. *)
Record Poll := mkPoll {
  t_now : Z;
  setBtn : SetButton;
  skinBtn : SkinButton
}.

Inductive Step :=
| Continue (l : Locals) (d : Device)
| Exit (r : Result).

(** A short press of the set button. *)
Definition nextSpf (l : Locals) (d : Device) : Locals * Device :=
  if spfIndex l <? 6 then
    (mkLocals (u8 (spfIndex l + 1)) (tempSkinType l) (skinTypeNotPressed l),
     emit [ToneAC NOTE_C5 10 50 true] d)
  else
    (mkLocals 1 (tempSkinType l) (skinTypeNotPressed l),
     emit [ToneAC NOTE_C7 10 40 false; ToneAC NOTE_C5 10 50 false] d).

(** A press of the skin button. *)
Definition nextSkin (l : Locals) (d : Device) : Locals * Device :=
  let l := if skinTypeNotPressed l then mkLocals (spfIndex l) 0 false else l in
  if tempSkinType l <? 6 then
    (mkLocals (spfIndex l) (u8 (tempSkinType l + 1)) (skinTypeNotPressed l),
     emit [ToneAC NOTE_C6 10 50 true] d)
  else
    (mkLocals (spfIndex l) 1 (skinTypeNotPressed l),
     emit [ToneAC NOTE_C5 10 40 false; ToneAC NOTE_C6 10 50 false] d).

(** The write-avoiding store of the skin type at a commit. *)
Definition storeSkinType (l : Locals) (d : Device) : Device :=
  if tempSkinType l =? skinType d then d
  else EEPROM_write EE_SKIN_TYPE (tempSkinType l) (set_skinType (tempSkinType l) d).

(** A long press of the set button: the commit. *)
Definition commit (l : Locals) (d : Device) : Result :=
  let d := storeSkinType l d in
  let d := emit (countBeep (spfIndex l) NOTE_C5 ++ [Delay 1000]
                 ++ countBeep (skinType d) NOTE_C6 ++ [Delay 1000]) d in
  match calculateTimeToBurn (spfIndex l) d with
  | None => Fault d
  | Some d =>
      Ok (emit (PinWrite UV_SENSOR_PWR_PIN HIGH :: playStart ++ [WdtEnable])
               (set_state STATE_RUNNING d))
  end.

Definition doSetButton (b : SetButton) (l : Locals) (d : Device) : Step :=
  match b with
  | SetQuiet | SetReleased => Continue l d
  | SetPressed t_press t_down up =>
      let d := set_setTimer t_press d in
      match up with
      | None => Exit (Hang d)
      | Some (t_release, t_up) =>
          let d := set_setTimer t_release d in
          if u32 (t_up - t_down) <? LONG_CLICK_MS then
            let '(l, d) := nextSpf l d in Continue l d
          else Exit (commit l d)
      end
  end.

Definition doSkinButton (b : SkinButton) (l : Locals) (d : Device) : Step :=
  match b with
  | SkinQuiet | SkinReleased => Continue l d
  | SkinPressed t_press =>
      let '(l, d) := nextSkin l (set_setTimer t_press d) in Continue l d
  end.

Definition config_iter (p : Poll) (l : Locals) (d : Device) : Step :=
  if u32 (t_now p - setTimer d) <? SET_TIMEOUT then
    match doSetButton (setBtn p) l d with
    | Continue l d => doSkinButton (skinBtn p) l d
    | Exit r => Exit r
    end
  else Exit (Ok (set_state STATE_POWER_OFF d)).

(** The [while] loop over the polls supplied; [Continue] when they run
    out with the loop still going. *)
Fixpoint config_loop (ps : list Poll) (l : Locals) (d : Device) : Step :=
  match ps with
  | [] => Continue l d
  | p :: ps =>
      match config_iter p l d with
      | Continue l d => config_loop ps l d
      | Exit r => Exit r
      end
  end.

(** The state [doConfig] sets up before its loop; [t_enter] is the first
    [setTimer = millis()]. *)
Definition config_entry (t_enter : Z) (d : Device) : Locals * Device :=
  let d := set_wdtSleepCount 0 (set_runningTimer 0 d) in
  (mkLocals 1 (skinType d) true, set_setTimer t_enter (emit playStartup d)).

Definition doConfig (t_enter : Z) (ps : list Poll) (d : Device) : Result :=
  let '(l, d) := config_entry t_enter d in
  match config_loop ps l d with
  | Continue _ d => More d
  | Exit r => r
  end.

(** ** Boot *)

(** The globals as the C runtime initialises them, over a given EEPROM. *)
Definition power_on (rom : gmap Z Z) : Device :=
  mkDevice STATE_CONFIG 0 0 0 0 F32.zero 0 0 rom [].

(** [setup()]; [sensor_ok] is the result of [uv.begin()], [raw] and [vcc]
    the first sensor and supply readings. *)
Definition setup (sensor_ok : bool) (raw vcc : Z) (d : Device) : Result :=
  let d := emit [WdtDisable; PinWrite UV_SENSOR_PWR_PIN LOW; PinWrite ON_OFF_PIN HIGH;
                 PinWrite SKIN_PIN HIGH; PinWrite SET_PIN HIGH] d in
  let d := if (EEPROM_read EE_CHECKBYTE_1 d =? 0xBA) && (EEPROM_read EE_CHECKBYTE_2 d =? 0xDA)
           then set_skinType (EEPROM_read EE_SKIN_TYPE d) d
           else EEPROM_write EE_SKIN_TYPE 1
                  (EEPROM_write EE_CHECKBYTE_2 0xDA (EEPROM_write EE_CHECKBYTE_1 0xBA d)) in
  let d := emit [Delay 200; UvBegin] d in
  if sensor_ok then
    let d := doMeasure raw d in
    let d := set_vccVoltage vcc (emit [ReadVcc] d) in
    let d := emit (playStartup ++ [PinWrite UV_SENSOR_PWR_PIN HIGH]) d in
    Ok (set_state STATE_POWER_OFF d)
  else Hang (emit [ToneAC NOTE_C5 10 500 false] d).

(** ** The main loop *)

(** What one call of [loop()] reads from outside. *)
Record Env := mkEnv {
  t_enter : Z;
  polls : list Poll;
  onOff : Button;
  vcc : Z;
  uvRaw : Z;
  t_alarm : Z;
  alarm : list AlarmRound;
  wake : Interrupt
}.

(** The battery check and the measurement of a sampling cycle. *)
Definition sample (e : Env) (d : Device) : Device :=
  let d := set_vccVoltage (vcc e) (emit [ReadVcc] d) in
  let d := if vccVoltage d <=? MIN_BATT_VOLTS then emit lowBatteryTone d
           else emit shortBeep d in
  doMeasure (uvRaw e) d.

(** The entry actions of the power-off case, up to the call of
    [sleepNow]. *)
Definition powerDown (d : Device) : Device :=
  let d := emit [PinWrite UV_SENSOR_PWR_PIN HIGH] d in
  let d := set_runningTimer 0 d in
  emit (Delay 100 :: playShutdown ++ [WdtDisable; AttachInt0]) d.

Definition loop (e : Env) (d : Device) : Result :=
  match state d with
  | STATE_CONFIG =>
      call d <- doConfig (t_enter e) (polls e) d in
      if decide (state d = STATE_POWER_OFF) then Ok d
      else Ok (sleepNow (wake e) (emit [WdtEnable] d))
  | STATE_RUNNING =>
      if wdtSleepCount d =? 15 then
        let d := set_wdtSleepCount 0 d in
        let d := set_runningTimer (u16 (runningTimer d + 1)) d in
        if runningTimer d =? MAX_RUNNING_TIME then
          Ok (set_state STATE_POWER_OFF (emit [WdtDisable] d))
        else
          match checkPowerButton (onOff e) d with
          | Stuck d => Hang d
          | Off d => Ok (set_state STATE_POWER_OFF (emit [WdtDisable] d))
          | Stay d =>
              let d := sample e d in
              if F32.leb (minutesToBurn d) F32.zero then
                Ok (set_state STATE_COMPLETED (emit [WdtDisable] d))
              else Ok (sleepNow (wake e) (set_wdtSleepCount 0 d))
          end
      else
        match checkPowerButton (onOff e) d with
        | Stuck d => Hang d
        | Off d => Ok (set_state STATE_POWER_OFF d)
        | Stay d => Ok (sleepNow (wake e) d)
        end
  | STATE_COMPLETED =>
      call d <- playAlarm (t_alarm e) (alarm e) d in
      Ok (set_state STATE_POWER_OFF d)
  | STATE_POWER_OFF =>
      let d := sleepNow (wake e) (powerDown d) in
      Ok (set_state STATE_CONFIG (emit [Delay 200] d))
  end.

(** Successive calls of [loop()], one input record each. *)
Fixpoint run (es : list Env) (d : Device) : Result :=
  match es with
  | [] => Ok d
  | e :: es => call d <- loop e d in run es d
  end.

(** ** Concrete devices and inputs used in the examples *)

Module Scenario.

(** A store that has been initialised, holding skin type [skin]. *)
Definition stored (skin : Z) : gmap Z Z :=
  <[EE_CHECKBYTE_1 := 0xBA]> (<[EE_CHECKBYTE_2 := 0xDA]> (<[EE_SKIN_TYPE := skin]> ∅)).

(** The device after [setup()] on a given store, sensor present, no UV,
    3.30 V. *)
Definition boot (rom : gmap Z Z) : Device := reached (setup true 0 330 (power_on rom)).

Definition booted (skin : Z) : Device := boot (stored skin).

(** Set button pressed at [t] and held 200 ms, respectively 1500 ms. *)
Definition shortSet (t : Z) : Poll :=
  mkPoll t (SetPressed t t (Some (t + 200, t + 200))) SkinQuiet.
Definition longSet (t : Z) : Poll :=
  mkPoll t (SetPressed t t (Some (t + 1500, t + 1500))) SkinQuiet.
Definition skinPress (t : Z) : Poll := mkPoll t SetQuiet (SkinPressed t).
Definition idlePoll (t : Z) : Poll := mkPoll t SetQuiet SkinQuiet.

(** The locals and device with which the loop of [doConfig] starts at
    time 0 on a booted device. *)
Definition entered (skin : Z) : Locals * Device := config_entry 0 (booted skin).

(** A call of [loop()] with nothing happening: no button, 3.30 V, raw
    sensor reading [raw], woken by the watchdog. *)
Definition quietEnv (raw : Z) : Env := mkEnv 0 [] Quiet 330 raw 0 [] WDT_vect.

(** Waking from power-off by the power button; then a configuration in
    which the set button is long-pressed at once. *)
Definition wakeEnv : Env := mkEnv 0 [] Quiet 330 0 0 [] INT0_vect.
Definition commitEnv : Env := mkEnv 0 [longSet 1000] Quiet 330 0 0 [] WDT_vect.

(** From power-off: wake, commit without touching the skin button, and
    one minute (fifteen watchdog periods) with raw reading [raw]. *)
Definition firstMinute (raw : Z) : list Env :=
  wakeEnv :: commitEnv :: repeat (quietEnv raw) 15.

(** Fifteen watchdog periods, that is one minute, and [n] minutes, with
    nothing happening and raw reading [raw]. *)
Definition minute (raw : Z) : list Env := repeat (quietEnv raw) 15.

Fixpoint minutes (n : nat) (raw : Z) : list Env :=
  match n with
  | O => []
  | S n => minute raw ++ minutes n raw
  end.

(** A sampling call in which the supply reads [v]. *)
Definition supplyEnv (v : Z) : Env := mkEnv 0 [] Quiet v 0 0 [] WDT_vect.

(** A device in the middle of a session. *)
Definition running (count timer : Z) (budget : F32.float) : Device :=
  mkDevice STATE_RUNNING 0 0 timer 1 budget count 330 (stored 1) [].

End Scenario.

(** ** Vocabulary of the statements *)

(** The power button lets a sampling cycle proceed: no press, or a press
    released within the long-click time. *)
Definition noLongPress (b : Button) : Prop :=
  match b with
  | Quiet | Released => True
  | Pressed t_down (Some t_up) => u32 (t_up - t_down) < LONG_CLICK_MS
  | Pressed _ None => False
  end.

(** Calls of [loop()] none of which is a commit, that is none takes the
    device from configuration to running: the executions that stay within
    the session the device is in. *)
Inductive same_session : Device -> Device -> Prop :=
| session_here d : same_session d d
| session_call e d d1 d2 :
    same_session d d1 ->
    loop e d1 = Ok d2 ->
    ~ (state d1 = STATE_CONFIG /\ state d2 = STATE_RUNNING) ->
    same_session d d2.

(** A running device, by the fields a session is made of. *)
Definition session (d : Device) (count timer : Z) (budget : F32.float) : Prop :=
  state d = STATE_RUNNING /\ wdtSleepCount d = count
  /\ runningTimer d = timer /\ minutesToBurn d = budget.

(** The budget after one measurement of raw reading [raw]. *)
Definition consume (budget : F32.float) (raw : Z) : F32.float :=
  F32.sub budget (F32.mul (F32.of_Z 1) (F32.div (F32.of_Z (u16 raw)) (F32.of_Z 100))).

(** The level last written to a pin, if any. *)
Definition pinLevel (pin : Z) (t : list Effect) : option bool :=
  last (omap (fun e => match e with
                       | PinWrite p v => if p =? pin then Some v else None
                       | _ => None
                       end) t).

(** The tones in a trace. *)
Definition tones (t : list Effect) : list Effect :=
  List.filter (fun e => match e with ToneAC _ _ _ _ => true | _ => false end) t.

(** A pass of the configuration loop in which no button does anything. *)
Definition idle (p : Poll) : Prop := setBtn p = SetQuiet /\ skinBtn p = SkinQuiet.

(** The store as every boot after the first finds it and as the variable
    [skinType] mirrors it. *)
Definition store_ok (d : Device) : Prop :=
  EEPROM_read EE_CHECKBYTE_1 d = 0xBA
  /\ EEPROM_read EE_CHECKBYTE_2 d = 0xDA
  /\ EEPROM_read EE_SKIN_TYPE d = skinType d
  /\ 0 <= skinType d < 256.

(** What the passes of the configuration loop leave alone: everything
    but [setTimer] and the tones in the trace. *)
Definition config_frame (d d' : Device) : Prop :=
  state d' = state d /\ runningTimer d' = runningTimer d
  /\ skinType d' = skinType d /\ minutesToBurn d' = minutesToBurn d
  /\ wdtSleepCount d' = wdtSleepCount d /\ eeprom d' = eeprom d
  /\ eeWrites (trace d') = eeWrites (trace d).

(** While the device runs its session is shorter than the ceiling. *)
Definition timer_ok (d : Device) : Prop :=
  state d = STATE_RUNNING -> 0 <= runningTimer d < MAX_RUNNING_TIME.

(** The selections of [doConfig] are within their cycles: the SPF index
    in 1..6, and the temporary skin type the one of the device until the
    skin button is pressed and in 1..6 from then on. *)
Definition selection_ok (l : Locals) (d : Device) : Prop :=
  1 <= spfIndex l <= 6
  /\ (if skinTypeNotPressed l then tempSkinType l = skinType d
      else 1 <= tempSkinType l <= 6).

(** The sounds of the alarm: a tone of the sweep, the one-millisecond
    delay after it, or the tone being stopped. *)
Definition alarm_sound (e : Effect) : Prop :=
  match e with
  | ToneAC f 10 0 false => f = 0 \/ (500 <= f <= 3000 /\ f mod 10 = 0)
  | Delay 1 => True
  | _ => False
  end.

(** Effects after which the sensor supply is not left switched on: the
    last write to its pin among them, if there is one, is HIGH. *)
Definition keeps_sensor_off (delta : list Effect) : Prop :=
  pinLevel UV_SENSOR_PWR_PIN delta <> Some LOW.

(** The trace of [d'] is the trace of [d] with such effects added. *)
Definition extends_sensor_off (d d' : Device) : Prop :=
  exists delta, trace d' = trace d ++ delta /\ keeps_sensor_off delta.

(** A round of the alarm that ends it: its loop test finds the time used
    up, or a press of the power button is seen in it. *)
Definition ends_alarm (t_start : Z) (r : AlarmRound) : Prop :=
  MAX_ALARM_TIME <= u32 (t_round r - t_start)
  \/ sweep_pressed (sweep_press r) || pause_press r = true.

#[global] Arguments F32.of_Z : simpl never.
#[global] Arguments F32.sub : simpl never.
#[global] Arguments F32.mul : simpl never.
#[global] Arguments F32.div : simpl never.
#[global] Arguments F32.leb : simpl never.
#[global] Arguments sample : simpl never.
#[global] Arguments doMeasure : simpl never.
#[global] Arguments sleepNow : simpl never.
#[global] Arguments u8 : simpl never.
#[global] Arguments u16 : simpl never.
#[global] Arguments u32 : simpl never.

(** ** Exposure model: facts *)


Lemma array_read_None table i :
  Z.of_nat (length table) <= i -> array_read table i = None.
Proof.
  intros H. unfold array_read.
  destruct (i <? 0) eqn:Hi; [reflexivity|].
  apply nth_error_None. lia.
Qed.

(** Inside both tables the budget is the plain product: no 16-bit
    wrap-around occurs. *)
Lemma calculateTimeToBurn_in_range index d :
  1 <= skinType d <= 5 -> 1 <= index <= 5 ->
  exists m spf,
    array_read skinTypeMinutesPerUVI (skinType d) = Some m /\
    array_read pressesPerSPF index = Some spf /\
    calculateTimeToBurn index d = Some (set_minutesToBurn (F32.of_Z (m * spf)) d).
Proof.
  intros Hs Hi. unfold calculateTimeToBurn.
  assert (Es : skinType d = 1 \/ skinType d = 2 \/ skinType d = 3 \/
               skinType d = 4 \/ skinType d = 5) by lia.
  assert (Ei : index = 1 \/ index = 2 \/ index = 3 \/ index = 4 \/ index = 5) by lia.
  destruct Es as [-> | [-> | [-> | [-> | ->]]]];
    destruct Ei as [-> | [-> | [-> | [-> | ->]]]];
    eexists _, _; repeat split; reflexivity.
Qed.

Example budget_skin3_spf15 d :
  skinType d = 3 ->
  calculateTimeToBurn 3 d = Some (set_minutesToBurn (F32.of_Z 3000) d).
Proof. intros H. unfold calculateTimeToBurn. rewrite H. reflexivity. Qed.

(** ** Configuration: how the two selections advance *)

Lemma nextSkin_first l d :
  skinTypeNotPressed l = true ->
  tempSkinType (nextSkin l d).1 = 1 /\ skinTypeNotPressed (nextSkin l d).1 = false.
Proof. intros H. unfold nextSkin. rewrite H. simpl. split; reflexivity. Qed.

Lemma nextSkin_cycle l d :
  skinTypeNotPressed l = false -> 1 <= tempSkinType l <= 6 ->
  tempSkinType (nextSkin l d).1 = (if tempSkinType l =? 6 then 1 else tempSkinType l + 1)
  /\ skinTypeNotPressed (nextSkin l d).1 = false.
Proof.
  intros H Hr. unfold nextSkin. rewrite H.
  destruct (tempSkinType l <? 6) eqn:E; simpl.
  - apply Z.ltb_lt in E. destruct (Z.eqb_spec (tempSkinType l) 6); [lia|].
    split; [|assumption]. unfold u8, wrap. rewrite Z.mod_small; lia.
  - apply Z.ltb_ge in E. replace (tempSkinType l) with 6 by lia. split; [reflexivity|assumption].
Qed.

(** After any press the temporary skin type is one of 1..6. *)
Lemma nextSkin_range l d :
  0 <= tempSkinType l < 256 ->
  1 <= tempSkinType (nextSkin l d).1 <= 6.
Proof.
  intros Hb. unfold nextSkin.
  destruct (skinTypeNotPressed l); simpl.
  - vm_compute. split; discriminate.
  - destruct (tempSkinType l <? 6) eqn:E; simpl; [|lia].
    apply Z.ltb_lt in E. unfold u8, wrap. rewrite Z.mod_small; lia.
Qed.

(** The SPF index advances up to 6 before it wraps. *)
Lemma nextSpf_cycle l d :
  1 <= spfIndex l <= 6 ->
  spfIndex (nextSpf l d).1 = (if spfIndex l =? 6 then 1 else spfIndex l + 1).
Proof.
  intros Hr. unfold nextSpf.
  destruct (spfIndex l <? 6) eqn:E; simpl.
  - apply Z.ltb_lt in E. destruct (Z.eqb_spec (spfIndex l) 6); [lia|].
    unfold u8, wrap. rewrite Z.mod_small; lia.
  - apply Z.ltb_ge in E. replace (spfIndex l) with 6 by lia. reflexivity.
Qed.

(** ** The budget tables and the two selections *)

Section TableReads.
Import Scenario.

(** C1.  The lookups of [calculateTimeToBurn] are not always inside the
    tables: skin type 6, reached by six presses of the skin button, is
    past the end of [skinTypeMinutesPerUVI], and SPF index 6, reached by
    five short presses of the set button, is past the end of
    [pressesPerSPF].  In both runs the commit ends in the read past the
    array. *)
Theorem C1_budget_lookup_overruns_tables :
  (exists d,
      doConfig 0 (map skinPress [1000; 2000; 3000; 4000; 5000; 6000] ++ [longSet 7000])
               (booted 3) = Fault d
      /\ skinType d = 6
      /\ array_read skinTypeMinutesPerUVI (skinType d) = None)
  /\ (exists d,
      doConfig 0 (map shortSet [1000; 2000; 3000; 4000; 5000] ++ [longSet 6000])
               (booted 3) = Fault d
      /\ skinType d = 3
      /\ array_read pressesPerSPF 6 = None).
Proof.
  split; eexists; (split; [vm_compute; reflexivity | split; reflexivity]).
Qed.

(** C2.  Short presses of the set button take the SPF index from 1
    through 2, 3, 4, 5 and on to 6; only the sixth press wraps it to 1.
    The skin button does cycle 1..6 and back to 1 (in general:
    [nextSkin_first], [nextSkin_cycle], [nextSkin_range]). *)
Theorem C2_spf_index_reaches_six :
  let l0 := (entered 3).1 in
  let d0 := (entered 3).2 in
  spfIndex l0 = 1
  /\ (exists l d, config_loop (map shortSet [1000; 2000; 3000; 4000]) l0 d0 = Continue l d
                  /\ spfIndex l = 5)
  /\ (exists l d, config_loop (map shortSet [1000; 2000; 3000; 4000; 5000]) l0 d0 = Continue l d
                  /\ spfIndex l = 6)
  /\ (exists l d, config_loop (map shortSet [1000; 2000; 3000; 4000; 5000; 6000]) l0 d0
                  = Continue l d
                  /\ spfIndex l = 1)
  /\ (exists l d, config_loop (map skinPress [1000; 2000; 3000; 4000; 5000; 6000]) l0 d0
                  = Continue l d
                  /\ tempSkinType l = 6)
  /\ (exists l d, config_loop (map skinPress [1000; 2000; 3000; 4000; 5000; 6000; 7000]) l0 d0
                  = Continue l d
                  /\ tempSkinType l = 1).
Proof.
  repeat split; try (eexists _, _; split; [vm_compute; reflexivity | reflexivity]).
Qed.

(** C3.  The budget is the product of the two table entries only for
    skin types 1 to 5 (see [calculateTimeToBurn_in_range]); for skin
    type 6 the array has no entry, whatever the SPF, and for skin types
    4 and 5 the entry is not the one the sketch documents. *)
Theorem C3_no_budget_for_skin_type_6 :
  (forall index d, calculateTimeToBurn index (set_skinType 6 d) = None)
  /\ array_read skinTypeMinutesPerUVI 6 = None
  /\ (array_read skinTypeMinutesPerUVI 4 = Some 400 /\ In (4, 300) documentedMinutesPerUVI)
  /\ (array_read skinTypeMinutesPerUVI 5 = Some 500 /\ In (5, 400) documentedMinutesPerUVI)
  /\ calculateTimeToBurn 3 (set_skinType 3 (booted 1))
     = Some (set_minutesToBurn (F32.of_Z 3000) (set_skinType 3 (booted 1))).
Proof.
  split; [intros index d; reflexivity|].
  split; [reflexivity|].
  split; [split; [reflexivity | simpl; tauto]|].
  split; [split; [reflexivity | simpl; tauto]|].
  reflexivity.
Qed.

End TableReads.

(** ** Running: the session ceiling *)

Section Running.
Import Scenario.

(** C4.  In a sampling call of [loop()] that takes [runningTimer] from
    719 to 720 the device goes to power-off whatever the budget is; the
    only effect is the watchdog being disabled: no voltage or sensor
    reading, no tone, the budget untouched, and the state is not
    completed, so the next call is the power-off case and never
    [playAlarm]. *)
Theorem C4_session_ceiling_forces_power_off (e : Env) (d : Device) :
  state d = STATE_RUNNING ->
  wdtSleepCount d = 15 ->
  runningTimer d = 719 ->
  exists d',
    loop e d = Ok d'
    /\ state d' = STATE_POWER_OFF
    /\ state d' <> STATE_COMPLETED
    /\ runningTimer d' = MAX_RUNNING_TIME
    /\ minutesToBurn d' = minutesToBurn d
    /\ vccVoltage d' = vccVoltage d
    /\ trace d' = trace d ++ [WdtDisable].
Proof.
  intros Hs Hc Ht. unfold loop. rewrite Hs, Hc. simpl. rewrite Ht. simpl.
  eexists. split; [reflexivity|]. simpl. repeat split. discriminate.
Qed.

Lemma C4_session_ceiling_witness :
  exists d',
    loop (quietEnv 0) (running 15 719 (F32.of_Z 67)) = Ok d'
    /\ state d' = STATE_POWER_OFF
    /\ state d' <> STATE_COMPLETED
    /\ runningTimer d' = MAX_RUNNING_TIME
    /\ minutesToBurn d' = minutesToBurn (running 15 719 (F32.of_Z 67))
    /\ vccVoltage d' = vccVoltage (running 15 719 (F32.of_Z 67))
    /\ trace d' = trace (running 15 719 (F32.of_Z 67)) ++ [WdtDisable].
Proof.
  apply (C4_session_ceiling_forces_power_off (quietEnv 0) (running 15 719 (F32.of_Z 67)));
    reflexivity.
Defined.

End Running.

(** ** Frame facts: what configuration and the alarm leave alone *)

Lemma eeWrites_app t1 t2 : eeWrites (t1 ++ t2) = eeWrites t1 ++ eeWrites t2.
Proof. apply omap_app. Qed.

Lemma nextSpf_frame l d :
  state (nextSpf l d).2 = state d /\ minutesToBurn (nextSpf l d).2 = minutesToBurn d
  /\ setTimer (nextSpf l d).2 = setTimer d /\ skinType (nextSpf l d).2 = skinType d
  /\ eeprom (nextSpf l d).2 = eeprom d
  /\ eeWrites (trace (nextSpf l d).2) = eeWrites (trace d).
Proof.
  unfold nextSpf. destruct (spfIndex l <? 6); simpl;
    rewrite eeWrites_app, app_nil_r; repeat split.
Qed.

Lemma nextSkin_frame l d :
  state (nextSkin l d).2 = state d /\ minutesToBurn (nextSkin l d).2 = minutesToBurn d
  /\ setTimer (nextSkin l d).2 = setTimer d /\ skinType (nextSkin l d).2 = skinType d
  /\ eeprom (nextSkin l d).2 = eeprom d
  /\ eeWrites (trace (nextSkin l d).2) = eeWrites (trace d).
Proof.
  unfold nextSkin.
  destruct (tempSkinType _ <? 6); simpl; rewrite eeWrites_app, app_nil_r; repeat split.
Qed.

(** A pass of the configuration loop that goes on has changed neither the
    state, nor the budget, nor the skin type, nor the store. *)
Lemma config_iter_continue p l d l' d' :
  config_iter p l d = Continue l' d' ->
  state d' = state d /\ minutesToBurn d' = minutesToBurn d
  /\ skinType d' = skinType d /\ eeprom d' = eeprom d
  /\ eeWrites (trace d') = eeWrites (trace d).
Proof.
  unfold config_iter. destruct (_ <? SET_TIMEOUT); [|discriminate].
  assert (Hskin : forall l1 d1, doSkinButton (skinBtn p) l1 d1 = Continue l' d' ->
            state d' = state d1 /\ minutesToBurn d' = minutesToBurn d1
            /\ skinType d' = skinType d1 /\ eeprom d' = eeprom d1
            /\ eeWrites (trace d') = eeWrites (trace d1)).
  { intros l1 d1. unfold doSkinButton.
    destruct (skinBtn p) as [| |t]; try (intros [= <- <-]; repeat split).
    pose proof (nextSkin_frame l1 (set_setTimer t d1)) as F.
    destruct (nextSkin l1 (set_setTimer t d1)) as [l2 d2]. simpl in F.
    intros [= <- <-]. tauto. }
  unfold doSetButton. destruct (setBtn p) as [| |tp td [[tr tu]|]]; try apply Hskin.
  - destruct (_ <? LONG_CLICK_MS); [|discriminate].
    pose proof (nextSpf_frame l (set_setTimer tr (set_setTimer tp d))) as F.
    destruct (nextSpf l (set_setTimer tr (set_setTimer tp d))) as [l2 d2]. simpl in F.
    intros H. apply Hskin in H. intuition congruence.
  - discriminate.
Qed.

Lemma commit_Ok l d d' :
  commit l d = Ok d' -> state d' = STATE_RUNNING.
Proof.
  unfold commit. destruct (calculateTimeToBurn _ _) as [d1|] eqn:E; [|discriminate].
  intros [= <-]. reflexivity.
Qed.

(** A pass that returns normally either timed out, leaving the budget as
    it was, or committed. *)
Lemma config_iter_exit_Ok p l d d' :
  config_iter p l d = Exit (Ok d') ->
  (state d' = STATE_POWER_OFF /\ minutesToBurn d' = minutesToBurn d)
  \/ state d' = STATE_RUNNING.
Proof.
  unfold config_iter. destruct (_ <? SET_TIMEOUT).
  - unfold doSetButton. destruct (setBtn p) as [| |tp td [[tr tu]|]].
    + unfold doSkinButton. destruct (skinBtn p); try discriminate.
      destruct (nextSkin _ _); discriminate.
    + unfold doSkinButton. destruct (skinBtn p); try discriminate.
      destruct (nextSkin _ _); discriminate.
    + destruct (_ <? LONG_CLICK_MS).
      * destruct (nextSpf _ _) as [l2 d2]. unfold doSkinButton.
        destruct (skinBtn p); try discriminate. destruct (nextSkin _ _); discriminate.
      * intros [= H]. right. eapply commit_Ok, H.
    + discriminate.
  - intros [= <-]. left. split; reflexivity.
Qed.

Lemma config_loop_exit_Ok ps : forall l d d',
  config_loop ps l d = Exit (Ok d') ->
  (state d' = STATE_POWER_OFF /\ minutesToBurn d' = minutesToBurn d)
  \/ state d' = STATE_RUNNING.
Proof.
  induction ps as [|p ps IH]; intros l d d'; simpl; [discriminate|].
  destruct (config_iter p l d) as [l1 d1|r] eqn:E.
  - intros H. apply IH in H. apply config_iter_continue in E.
    destruct H as [[H1 H2]|H]; [left|right; assumption].
    split; [assumption|]. destruct E as (_ & E & _). congruence.
  - intros [= ->]. eapply config_iter_exit_Ok, E.
Qed.

Lemma doConfig_Ok t ps d d' :
  doConfig t ps d = Ok d' ->
  (state d' = STATE_POWER_OFF /\ minutesToBurn d' = minutesToBurn d)
  \/ state d' = STATE_RUNNING.
Proof.
  unfold doConfig, config_entry.
  destruct (config_loop _ _ _) as [l1 d1|r] eqn:E; [discriminate|].
  intros ->. apply config_loop_exit_Ok in E. simpl in E. exact E.
Qed.

Lemma alarm_rounds_frame t rounds : forall d,
  state (reached (alarm_rounds t rounds d)) = state d
  /\ minutesToBurn (reached (alarm_rounds t rounds d)) = minutesToBurn d.
Proof.
  induction rounds as [|a rounds IH]; intros d; simpl; [split; reflexivity|].
  destruct (_ <? MAX_ALARM_TIME); [|split; reflexivity].
  destruct (_ || _); [split; reflexivity|].
  match goal with |- context [alarm_rounds t rounds ?x] => destruct (IH x) as [H1 H2] end.
  simpl in H1, H2. split; assumption.
Qed.

Lemma sleepNow_frame i d :
  state (sleepNow i d) = state d /\ minutesToBurn (sleepNow i d) = minutesToBurn d
  /\ runningTimer (sleepNow i d) = runningTimer d /\ skinType (sleepNow i d) = skinType d
  /\ eeprom (sleepNow i d) = eeprom d /\ vccVoltage (sleepNow i d) = vccVoltage d.
Proof. destruct i; repeat split. Qed.

Lemma sample_frame e d :
  state (sample e d) = state d /\ runningTimer (sample e d) = runningTimer d
  /\ minutesToBurn (sample e d) = consume (minutesToBurn d) (uvRaw e)
  /\ vccVoltage (sample e d) = vcc e.
Proof. unfold sample. simpl. destruct (_ <=? MIN_BATT_VOLTS); repeat split. Qed.

Lemma loop_outside_running e d d' :
  state d <> STATE_RUNNING ->
  loop e d = Ok d' ->
  (state d' <> STATE_RUNNING /\ minutesToBurn d' = minutesToBurn d)
  \/ (state d = STATE_CONFIG /\ state d' = STATE_RUNNING).
Proof.
  intros Hs. unfold loop. destruct (state d) eqn:E; [| | congruence |].
  - intros [= <-]. left. simpl. split; [discriminate|].
    destruct (sleepNow_frame (wake e) (powerDown d)) as (_ & -> & _). reflexivity.
  - destruct (doConfig _ _ d) as [d1| | |] eqn:C; simpl; try discriminate.
    apply doConfig_Ok in C. destruct (decide (state d1 = STATE_POWER_OFF)) as [P|P].
    + intros [= <-]. left. destruct C as [[_ C]|C]; [|congruence].
      split; [congruence | assumption].
    + intros [= <-]. right. destruct C as [[C _]|C]; [contradiction|].
      split; [reflexivity|].
      destruct (sleepNow_frame (wake e) (emit [WdtEnable] d1)) as (-> & _). assumption.
  - unfold playAlarm. pose proof (alarm_rounds_frame (t_alarm e) (alarm e) d) as [_ F].
    destruct (alarm_rounds _ _ d) as [d1| | |]; simpl; try discriminate.
    intros [= <-]. left. simpl. split; [discriminate | exact F].
Qed.
(** Within a session, a device that is not running keeps its budget and
    does not come back to running. *)
Lemma same_session_frozen d d' :
  same_session d d' ->
  state d <> STATE_RUNNING ->
  state d' <> STATE_RUNNING /\ minutesToBurn d' = minutesToBurn d.
Proof.
  induction 1 as [d | e d d1 d2 _ IH Hl Hn]; intros Hs; [split; [assumption | reflexivity]|].
  destruct (IH Hs) as [H1 H2].
  destruct (loop_outside_running e d1 d2 H1 Hl) as [[A B]|C]; [|contradiction].
  split; [assumption | congruence].
Qed.

Lemma checkPowerButton_Stay b d :
  noLongPress b ->
  exists d1, checkPowerButton b d = Stay d1
             /\ state d1 = state d /\ minutesToBurn d1 = minutesToBurn d
             /\ runningTimer d1 = runningTimer d /\ wdtSleepCount d1 = wdtSleepCount d
             /\ vccVoltage d1 = vccVoltage d /\ trace d1 = trace d.
Proof.
  destruct b as [| |t [u|]]; simpl; intros H; try contradiction;
    try (eexists; split; [reflexivity | repeat split]).
  apply Z.ltb_lt in H. rewrite H. eexists; split; [reflexivity | repeat split].
Qed.

Section Sampling.
Import Scenario.

(** C5.  At a sampling point of the running state (a minute has
    elapsed, the ceiling is not reached, the power button is not
    long-pressed) the budget is charged with the reading, and the device
    goes to completed exactly when the budget after the measurement is
    less than or equal to zero; otherwise it stays running.  From the
    completed state on, no call of [loop()] of the same session changes
    the budget again. *)
Theorem C5_completed_iff_budget_exhausted (e : Env) (d : Device) :
  state d = STATE_RUNNING ->
  wdtSleepCount d = 15 ->
  u16 (runningTimer d + 1) <> MAX_RUNNING_TIME ->
  noLongPress (onOff e) ->
  exists d',
    loop e d = Ok d'
    /\ minutesToBurn d' = consume (minutesToBurn d) (uvRaw e)
    /\ (state d' = STATE_COMPLETED <-> F32.leb (minutesToBurn d') F32.zero = true)
    /\ (state d' = STATE_RUNNING <-> F32.leb (minutesToBurn d') F32.zero = false)
    /\ (state d' = STATE_COMPLETED ->
        forall d'', same_session d' d'' ->
                    minutesToBurn d'' = minutesToBurn d' /\ state d'' <> STATE_RUNNING).
Proof.
  intros Hs Hc Ht Hb. unfold loop. rewrite Hs, Hc. cbn.
  destruct (Z.eqb_spec (u16 (runningTimer d + 1)) MAX_RUNNING_TIME) as [|_]; [contradiction|].
  destruct (checkPowerButton_Stay (onOff e)
              (set_runningTimer (u16 (runningTimer d + 1)) (set_wdtSleepCount 0 d)) Hb)
    as (d1 & -> & Hs1 & Hm & _).
  simpl in Hs1, Hm.
  destruct (sample_frame e d1) as (Hs2 & _ & Hm2 & _). rewrite Hm in Hm2.
  destruct (F32.leb (minutesToBurn (sample e d1)) F32.zero) eqn:L.
  - eexists. split; [reflexivity|]. cbn. rewrite L.
    split; [exact Hm2|]. split; [tauto|]. split; [split; discriminate|].
    intros _ d'' Hss. apply same_session_frozen in Hss; [|cbn; discriminate].
    cbn in Hss. tauto.
  - eexists. split; [reflexivity|].
    destruct (sleepNow_frame (wake e) (set_wdtSleepCount 0 (sample e d1)))
      as (-> & -> & _).
    cbn. rewrite L, Hs2, Hs1, Hs.
    split; [exact Hm2|]. split; [split; discriminate|]. split; [tauto|]. discriminate.
Qed.

Lemma C5_completed_iff_budget_exhausted_witness :
  exists d',
    loop (quietEnv 6700) (running 15 5 (F32.of_Z 67)) = Ok d'
    /\ minutesToBurn d' = consume (minutesToBurn (running 15 5 (F32.of_Z 67)))
                                  (uvRaw (quietEnv 6700))
    /\ (state d' = STATE_COMPLETED <-> F32.leb (minutesToBurn d') F32.zero = true)
    /\ (state d' = STATE_RUNNING <-> F32.leb (minutesToBurn d') F32.zero = false)
    /\ (state d' = STATE_COMPLETED ->
        forall d'', same_session d' d'' ->
                    minutesToBurn d'' = minutesToBurn d' /\ state d'' <> STATE_RUNNING).
Proof.
  apply (C5_completed_iff_budget_exhausted (quietEnv 6700) (running 15 5 (F32.of_Z 67)));
    [reflexivity | reflexivity | vm_compute; discriminate | exact I].
Defined.

(** A budget of 67 minutes met by a reading of 67.00: exactly zero, and
    the session is completed. *)
Example budget_exactly_zero_completes :
  exists d', loop (quietEnv 6700) (running 15 5 (F32.of_Z 67)) = Ok d'
             /\ minutesToBurn d' = F32.zero /\ state d' = STATE_COMPLETED.
Proof. eexists. split; [vm_compute; reflexivity | split; reflexivity]. Qed.

(** A reading of 67.01 leaves about -0.01 and completes too. *)
Example budget_just_below_zero_completes :
  exists d', loop (quietEnv 6701) (running 15 5 (F32.of_Z 67)) = Ok d'
             /\ minutesToBurn d' = SpecFloat.S754_finite true 10739712 (-30)
             /\ state d' = STATE_COMPLETED.
Proof. eexists. split; [vm_compute; reflexivity | split; reflexivity]. Qed.

(** A reading of 66.99 leaves about 0.01 and the session goes on. *)
Example budget_just_above_zero_continues :
  exists d', loop (quietEnv 6699) (running 15 5 (F32.of_Z 67)) = Ok d'
             /\ minutesToBurn d' = SpecFloat.S754_finite false 10739712 (-30)
             /\ state d' = STATE_RUNNING.
Proof. eexists. split; [vm_compute; reflexivity | split; reflexivity]. Qed.

End Sampling.

(** ** Boot *)

Lemma setup_uninitialised ok raw vcc rom :
  (EEPROM_read EE_CHECKBYTE_1 (power_on rom) =? 0xBA)
  && (EEPROM_read EE_CHECKBYTE_2 (power_on rom) =? 0xDA) = false ->
  let d := reached (setup ok raw vcc (power_on rom)) in
  skinType d = 0
  /\ EEPROM_read EE_CHECKBYTE_1 d = 0xBA
  /\ EEPROM_read EE_CHECKBYTE_2 d = 0xDA
  /\ EEPROM_read EE_SKIN_TYPE d = 1
  /\ eeWrites (trace d) = [(EE_CHECKBYTE_1, 0xBA); (EE_CHECKBYTE_2, 0xDA); (EE_SKIN_TYPE, 1)].
Proof.
  intros H. unfold setup.
  change (EEPROM_read EE_CHECKBYTE_1 (emit _ (power_on rom)))
    with (EEPROM_read EE_CHECKBYTE_1 (power_on rom)).
  change (EEPROM_read EE_CHECKBYTE_2 (emit _ (power_on rom)))
    with (EEPROM_read EE_CHECKBYTE_2 (power_on rom)).
  rewrite H.
  destruct ok; unfold doMeasure; cbn; unfold EEPROM_read; cbn.
  all: repeat split; try reflexivity.
  all: try (rewrite lookup_insert_ne by (vm_compute; discriminate)).
  all: try (rewrite lookup_insert_ne by (vm_compute; discriminate)).
  all: rewrite lookup_insert_eq; reflexivity.
Qed.

Lemma setup_initialised ok raw vcc rom :
  (EEPROM_read EE_CHECKBYTE_1 (power_on rom) =? 0xBA)
  && (EEPROM_read EE_CHECKBYTE_2 (power_on rom) =? 0xDA) = true ->
  let d := reached (setup ok raw vcc (power_on rom)) in
  skinType d = EEPROM_read EE_SKIN_TYPE (power_on rom)
  /\ eeprom d = rom
  /\ eeWrites (trace d) = [].
Proof.
  intros H. unfold setup.
  change (EEPROM_read EE_CHECKBYTE_1 (emit _ (power_on rom)))
    with (EEPROM_read EE_CHECKBYTE_1 (power_on rom)).
  change (EEPROM_read EE_CHECKBYTE_2 (emit _ (power_on rom)))
    with (EEPROM_read EE_CHECKBYTE_2 (power_on rom)).
  rewrite H.
  destruct ok; unfold doMeasure; cbn; repeat split.
Qed.

Section FirstBoot.
Import Scenario.

(** C6.  On a store that was never written, [setup()] seeds the two
    checkbytes and the skin-type byte 1, and it is not an error: the
    device goes on to power-off.  But the variable [skinType] of that
    session is not set: it stays 0, the unused entry of the table.  A
    session committed without a press of the skin button then starts
    with a budget of 0 and is completed after its first minute, with no
    UV at all; only after the next reset is the skin type 1 (budget 67
    minutes at SPF index 1). *)
Theorem C6_first_boot_leaves_skin_type_zero :
  (forall raw vcc,
      exists d, setup true raw vcc (power_on ∅) = Ok d
                /\ state d = STATE_POWER_OFF
                /\ EEPROM_read EE_CHECKBYTE_1 d = 0xBA
                /\ EEPROM_read EE_CHECKBYTE_2 d = 0xDA
                /\ EEPROM_read EE_SKIN_TYPE d = 1
                /\ skinType d = 0)
  /\ (exists d, run [wakeEnv; commitEnv] (boot ∅) = Ok d
                /\ state d = STATE_RUNNING /\ skinType d = 0
                /\ minutesToBurn d = F32.zero)
  /\ (exists d, run (firstMinute 0) (boot ∅) = Ok d
                /\ state d = STATE_COMPLETED /\ runningTimer d = 1)
  /\ (exists d, run [wakeEnv; commitEnv] (boot (eeprom (boot ∅))) = Ok d
                /\ state d = STATE_RUNNING /\ skinType d = 1
                /\ minutesToBurn d = F32.of_Z 67).
Proof.
  split; [|split; [|split]].
  - intros raw vcc.
    assert (Hrom : (EEPROM_read EE_CHECKBYTE_1 (power_on ∅) =? 0xBA)
                   && (EEPROM_read EE_CHECKBYTE_2 (power_on ∅) =? 0xDA) = false)
      by (unfold EEPROM_read; cbn; rewrite lookup_empty; reflexivity).
    destruct (setup_uninitialised true raw vcc ∅ Hrom) as (H0 & H1 & H2 & H3 & _).
    eexists. split; [reflexivity|]. split; [reflexivity|].
    repeat split; assumption.
  - eexists. split; [vm_compute; reflexivity | repeat split].
  - eexists. split; [vm_compute; reflexivity | repeat split].
  - eexists. split; [vm_compute; reflexivity | repeat split].
Qed.

End FirstBoot.

(** ** Running: the battery check *)

Section Battery.
Import Scenario.

(** C7, as stated, fails: a supply reading equal to the threshold is
    not below it, and yet the cycle plays the low-battery tone and not
    the short beep. *)
Lemma C7_reading_at_threshold_gets_low_tone :
  ~ (vcc (supplyEnv MIN_BATT_VOLTS) < MIN_BATT_VOLTS)
  /\ exists d', loop (supplyEnv MIN_BATT_VOLTS) (running 15 5 (F32.of_Z 67)) = Ok d'
                /\ vccVoltage d' = MIN_BATT_VOLTS
                /\ tones (trace d') = lowBatteryTone
                /\ tones (trace d') <> shortBeep.
Proof.
  split; [vm_compute; discriminate|].
  eexists. split; [vm_compute; reflexivity|].
  split; [reflexivity|]. split; [reflexivity|]. vm_compute. discriminate.
Qed.

(** C7, amended.  A sampling cycle reads the supply voltage once, then
    plays the low-battery tone if the reading is at or below the
    threshold and the short beep if it is above; then it measures.  No
    other tone and no other voltage reading belong to the cycle. *)
Theorem C7_battery_feedback (e : Env) (d : Device) :
  state d = STATE_RUNNING ->
  wdtSleepCount d = 15 ->
  u16 (runningTimer d + 1) <> MAX_RUNNING_TIME ->
  noLongPress (onOff e) ->
  exists d' tail,
    loop e d = Ok d'
    /\ vccVoltage d' = vcc e
    /\ trace d' = trace d ++ [ReadVcc]
                  ++ (if vcc e <=? MIN_BATT_VOLTS then lowBatteryTone else shortBeep)
                  ++ measureEffects ++ tail
    /\ tones tail = []
    /\ ~ In ReadVcc tail.
Proof.
  intros Hs Hc Ht Hb. unfold loop. rewrite Hs, Hc. cbn.
  destruct (Z.eqb_spec (u16 (runningTimer d + 1)) MAX_RUNNING_TIME) as [|_]; [contradiction|].
  destruct (checkPowerButton_Stay (onOff e)
              (set_runningTimer (u16 (runningTimer d + 1)) (set_wdtSleepCount 0 d)) Hb)
    as (d1 & -> & _ & _ & _ & _ & _ & Htr).
  cbn in Htr.
  assert (Hsample : trace (sample e d1) = trace d ++ [ReadVcc]
                  ++ (if vcc e <=? MIN_BATT_VOLTS then lowBatteryTone else shortBeep)
                  ++ measureEffects).
  { unfold sample, doMeasure. cbn.
    destruct (vcc e <=? MIN_BATT_VOLTS); cbn; rewrite Htr, <- !app_assoc; reflexivity. }
  destruct (sample_frame e d1) as (_ & _ & _ & Hv).
  destruct (F32.leb (minutesToBurn (sample e d1)) F32.zero).
  - exists (set_state STATE_COMPLETED (emit [WdtDisable] (sample e d1))), [WdtDisable].
    split; [reflexivity|]. split; [exact Hv|]. cbn. rewrite Hsample.
    split; [rewrite <- !app_assoc; reflexivity|]. split; [reflexivity|].
    intros [H|[]]; discriminate.
  - destruct (wake e).
    + exists (sleepNow WDT_vect (set_wdtSleepCount 0 (sample e d1))), [Sleep].
      split; [reflexivity|]. split; [exact Hv|]. unfold sleepNow. cbn. rewrite Hsample.
      split; [rewrite <- !app_assoc; reflexivity|]. split; [reflexivity|].
      intros [H|[]]; discriminate.
    + exists (sleepNow INT0_vect (set_wdtSleepCount 0 (sample e d1))), [Sleep; DetachInt0].
      split; [reflexivity|]. split; [exact Hv|]. unfold sleepNow. cbn. rewrite Hsample.
      split; [rewrite <- !app_assoc; reflexivity|]. split; [reflexivity|].
      intros [H|[H|[]]]; discriminate.
Qed.

Lemma C7_battery_feedback_witness :
  exists d' tail,
    loop (supplyEnv 269) (running 15 5 (F32.of_Z 67)) = Ok d'
    /\ vccVoltage d' = vcc (supplyEnv 269)
    /\ trace d' = trace (running 15 5 (F32.of_Z 67)) ++ [ReadVcc]
                  ++ (if vcc (supplyEnv 269) <=? MIN_BATT_VOLTS
                      then lowBatteryTone else shortBeep)
                  ++ measureEffects ++ tail
    /\ tones tail = []
    /\ ~ In ReadVcc tail.
Proof.
  apply (C7_battery_feedback (supplyEnv 269) (running 15 5 (F32.of_Z 67)));
    [reflexivity | reflexivity | vm_compute; discriminate | exact I].
Defined.

End Battery.

(** ** Configuration: the commit and the store *)

Lemma eeWrites_beeps n freq : eeWrites (beeps n freq) = [].
Proof. induction n as [|n IH]; [reflexivity | exact IH]. Qed.

Lemma calculateTimeToBurn_Some index d d' :
  calculateTimeToBurn index d = Some d' ->
  exists budget, d' = set_minutesToBurn budget d.
Proof.
  unfold calculateTimeToBurn.
  destruct (array_read skinTypeMinutesPerUVI _) as [m|]; [|discriminate].
  destruct (array_read pressesPerSPF _) as [spf|]; [|discriminate].
  intros [= <-]. eexists. reflexivity.
Qed.

(** Whether the commit ends normally or in a read past a table, what it
    did to the store is what [storeSkinType] did. *)
Lemma commit_reached l d :
  (exists d', commit l d = Ok d' \/ commit l d = Fault d')
  /\ eeprom (reached (commit l d)) = eeprom (storeSkinType l d)
  /\ skinType (reached (commit l d)) = skinType (storeSkinType l d)
  /\ eeWrites (trace (reached (commit l d))) = eeWrites (trace (storeSkinType l d)).
Proof.
  unfold commit.
  set (d1 := storeSkinType l d).
  set (d2 := emit _ d1).
  assert (H2 : eeprom d2 = eeprom d1 /\ skinType d2 = skinType d1
               /\ eeWrites (trace d2) = eeWrites (trace d1)).
  { subst d2. split; [reflexivity|]. split; [reflexivity|].
    unfold emit. cbn [trace]. unfold countBeep.
    rewrite !eeWrites_app, !eeWrites_beeps. apply app_nil_r. }
  destruct H2 as (E & S & W).
  destruct (calculateTimeToBurn (spfIndex l) d2) as [d3|] eqn:C.
  - apply calculateTimeToBurn_Some in C as [b ->].
    split; [eexists; left; reflexivity|]. cbn.
    rewrite eeWrites_app. cbn. rewrite app_nil_r. repeat split; assumption.
  - split; [eexists; right; reflexivity|]. cbn. repeat split; assumption.
Qed.

Lemma storeSkinType_same l d :
  tempSkinType l = skinType d -> storeSkinType l d = d.
Proof. intros H. unfold storeSkinType. rewrite H, Z.eqb_refl. reflexivity. Qed.

Lemma storeSkinType_changed l d :
  tempSkinType l <> skinType d -> 0 <= tempSkinType l < 256 ->
  eeprom (storeSkinType l d) = <[EE_SKIN_TYPE := tempSkinType l]> (eeprom d)
  /\ skinType (storeSkinType l d) = tempSkinType l
  /\ trace (storeSkinType l d) = trace d ++ [EEWrite EE_SKIN_TYPE (tempSkinType l)].
Proof.
  intros H Hb. unfold storeSkinType.
  destruct (Z.eqb_spec (tempSkinType l) (skinType d)); [contradiction|].
  cbn. replace (u8 (tempSkinType l)) with (tempSkinType l)
    by (unfold u8, wrap; rewrite Z.mod_small; lia).
  repeat split.
Qed.

Section Commit.
Import Scenario.

(** X18.  A pass of the configuration loop in which the set button is
    held for at least 1000 ms commits, and what decides the write is the
    variable [skinType], not the byte in the store.  If the temporary
    skin type is that variable's value, the store is left as it is and
    nothing is written; if it differs, exactly one write is made, of the
    new value to the skin-type address.  In both cases every other
    address of the store reads as before, and a variable that agreed with
    the stored byte still agrees with it. *)
Theorem commit_writes_only_a_changed_skin_type
    (p : Poll) (l : Locals) (d : Device) (t_press t_down t_release t_up : Z) :
  setBtn p = SetPressed t_press t_down (Some (t_release, t_up)) ->
  u32 (t_now p - setTimer d) < SET_TIMEOUT ->
  LONG_CLICK_MS <= u32 (t_up - t_down) ->
  0 <= tempSkinType l < 256 ->
  exists r,
    config_iter p l d = Exit r
    /\ (exists d', r = Ok d' \/ r = Fault d')
    /\ (tempSkinType l = skinType d ->
        eeprom (reached r) = eeprom d
        /\ eeWrites (trace (reached r)) = eeWrites (trace d))
    /\ (tempSkinType l <> skinType d ->
        eeprom (reached r) = <[EE_SKIN_TYPE := tempSkinType l]> (eeprom d)
        /\ eeWrites (trace (reached r))
           = eeWrites (trace d) ++ [(EE_SKIN_TYPE, tempSkinType l)])
    /\ (forall a, a <> EE_SKIN_TYPE -> eeprom (reached r) !! a = eeprom d !! a)
    /\ skinType (reached r) = tempSkinType l
    /\ (EEPROM_read EE_SKIN_TYPE d = skinType d ->
        EEPROM_read EE_SKIN_TYPE (reached r) = skinType (reached r)).
Proof.
  intros Hset Hwin Hlong Hbyte.
  unfold config_iter. apply Z.ltb_lt in Hwin. rewrite Hwin, Hset. cbn.
  apply Z.ltb_ge in Hlong. rewrite Hlong.
  set (d0 := set_setTimer t_release (set_setTimer t_press d)).
  exists (commit l d0). split; [reflexivity|].
  destruct (commit_reached l d0) as (Hr & He & Hs & Hw).
  split; [exact Hr|]. rewrite He, Hs, Hw. unfold EEPROM_read. rewrite He.
  destruct (Z.eq_dec (tempSkinType l) (skinType d)) as [Heq|Hne].
  - rewrite (storeSkinType_same l d0 Heq). cbn.
    repeat split; try tauto; try congruence.
  - destruct (storeSkinType_changed l d0 Hne Hbyte) as (E & S & T).
    rewrite E, S, T, eeWrites_app. cbn.
    split; [tauto|]. split; [intros _; split; reflexivity|].
    split; [intros a Ha; apply lookup_insert_ne; congruence|].
    split; [reflexivity|]. intros _. rewrite lookup_insert_eq. reflexivity.
Qed.

Lemma commit_writes_only_a_changed_skin_type_witness :
  exists r,
    config_iter (longSet 1000) (mkLocals 2 4 false) (entered 3).2 = Exit r
    /\ (exists d', r = Ok d' \/ r = Fault d')
    /\ (tempSkinType (mkLocals 2 4 false) = skinType (entered 3).2 ->
        eeprom (reached r) = eeprom (entered 3).2
        /\ eeWrites (trace (reached r)) = eeWrites (trace (entered 3).2))
    /\ (tempSkinType (mkLocals 2 4 false) <> skinType (entered 3).2 ->
        eeprom (reached r)
        = <[EE_SKIN_TYPE := tempSkinType (mkLocals 2 4 false)]> (eeprom (entered 3).2)
        /\ eeWrites (trace (reached r))
           = eeWrites (trace (entered 3).2)
             ++ [(EE_SKIN_TYPE, tempSkinType (mkLocals 2 4 false))])
    /\ (forall a, a <> EE_SKIN_TYPE ->
                  eeprom (reached r) !! a = eeprom (entered 3).2 !! a)
    /\ skinType (reached r) = tempSkinType (mkLocals 2 4 false)
    /\ (EEPROM_read EE_SKIN_TYPE (entered 3).2 = skinType (entered 3).2 ->
        EEPROM_read EE_SKIN_TYPE (reached r) = skinType (reached r)).
Proof.
  apply (commit_writes_only_a_changed_skin_type
           (longSet 1000) (mkLocals 2 4 false) (entered 3).2 1000 1000 2500 2500);
    [reflexivity | vm_compute; reflexivity | vm_compute; discriminate
     | cbn; lia].
Defined.

(** C8.  On the device of a first boot the write avoidance of the commit
    goes wrong both ways.  [setup()] on an erased store leaves the byte 1
    in the store and 0 in the variable [skinType], and the commit compares
    the temporary skin type with the variable.  After one press of the
    skin button the temporary skin type is 1, equal to the stored byte,
    and the commit writes 1 to the skin-type address all the same; with no
    press it is 0, different from the stored byte, and the commit writes
    nothing, the store keeping 1 while the session runs with 0. *)
Theorem C8_first_boot_commit_ignores_stored_skin_type :
  let d := (config_entry 0 (boot ∅)).2 in
  let l := (config_entry 0 (boot ∅)).1 in
  EEPROM_read EE_SKIN_TYPE d = 1
  /\ skinType d = 0
  /\ (exists l1 d1 d',
        config_iter (skinPress 500) l d = Continue l1 d1
        /\ tempSkinType l1 = EEPROM_read EE_SKIN_TYPE d1
        /\ config_iter (longSet 1000) l1 d1 = Exit (Ok d')
        /\ eeWrites (trace d') = eeWrites (trace d1) ++ [(EE_SKIN_TYPE, 1)])
  /\ (tempSkinType l <> EEPROM_read EE_SKIN_TYPE d
      /\ exists d',
          config_iter (longSet 1000) l d = Exit (Ok d')
          /\ eeWrites (trace d') = eeWrites (trace d)
          /\ EEPROM_read EE_SKIN_TYPE d' = 1
          /\ skinType d' = 0).
Proof.
  cbv zeta. split; [vm_compute; reflexivity|]. split; [reflexivity|]. split.
  - eexists _, _, _. split; [vm_compute; reflexivity|].
    split; [vm_compute; reflexivity|]. split; [vm_compute; reflexivity|].
    vm_compute. reflexivity.
  - split; [vm_compute; discriminate|].
    eexists. split; [vm_compute; reflexivity|].
    split; [vm_compute; reflexivity|]. split; vm_compute; reflexivity.
Qed.

End Commit.

(** ** Configuration: the inactivity window *)

Lemma config_iter_idle p l d :
  idle p -> u32 (t_now p - setTimer d) < SET_TIMEOUT ->
  config_iter p l d = Continue l d.
Proof.
  intros [Hset Hskin] Hwin. unfold config_iter.
  apply Z.ltb_lt in Hwin. rewrite Hwin, Hset. cbn. rewrite Hskin. reflexivity.
Qed.

Lemma config_iter_timeout p l d :
  SET_TIMEOUT <= u32 (t_now p - setTimer d) ->
  config_iter p l d = Exit (Ok (set_state STATE_POWER_OFF d)).
Proof.
  intros Hout. unfold config_iter. apply Z.ltb_ge in Hout. rewrite Hout. reflexivity.
Qed.


Section Inactivity.
Import Scenario.



End Inactivity.

(** ** Power-off *)

Lemma pinLevel_app pin t1 t2 v :
  pinLevel pin t2 = Some v -> pinLevel pin (t1 ++ t2) = Some v.
Proof.
  unfold pinLevel. rewrite omap_app.
  destruct (omap _ t2) as [|x xs] eqn:E using rev_ind; [discriminate|].
  rewrite app_assoc, !last_snoc. trivial.
Qed.

Lemma pinLevel_app_quiet pin t1 t2 :
  pinLevel pin t2 = None -> pinLevel pin (t1 ++ t2) = pinLevel pin t1.
Proof.
  unfold pinLevel. rewrite omap_app. intros H.
  apply last_None in H. rewrite H, app_nil_r. reflexivity.
Qed.

Section PowerOff.
Import Scenario.

(** C10.  A call of [loop()] in the power-off state switches the
    sensor supply off (pin 5 HIGH) and sets [runningTimer] to 0 before
    it sleeps; the shutdown tune, the watchdog being disabled and the
    wake interrupt being armed come in between.  Whatever interrupt ends
    the sleep, the call returns normally and leaves the device in the
    configuration state, never in running or completed. *)
Theorem C10_power_off_leads_to_config (e : Env) (d : Device) :
  state d = STATE_POWER_OFF ->
  trace (powerDown d)
    = trace d ++ [PinWrite UV_SENSOR_PWR_PIN HIGH; Delay 100] ++ playShutdown
              ++ [WdtDisable; AttachInt0]
  /\ pinLevel UV_SENSOR_PWR_PIN (trace (powerDown d)) = Some HIGH
  /\ runningTimer (powerDown d) = 0
  /\ exists d',
      loop e d = Ok d'
      /\ state d' = STATE_CONFIG
      /\ state d' <> STATE_RUNNING /\ state d' <> STATE_COMPLETED
      /\ runningTimer d' = 0
      /\ pinLevel UV_SENSOR_PWR_PIN (trace d') = Some HIGH
      /\ exists woken,
          trace d' = trace (powerDown d) ++ [Sleep] ++ woken ++ [Delay 200]
          /\ (woken = [] \/ woken = [DetachInt0]).
Proof.
  intros Hs.
  assert (Htr : trace (powerDown d)
                = trace d ++ [PinWrite UV_SENSOR_PWR_PIN HIGH; Delay 100] ++ playShutdown
                          ++ [WdtDisable; AttachInt0]).
  { unfold powerDown. cbn. rewrite <- app_assoc. reflexivity. }
  assert (Hpin : pinLevel UV_SENSOR_PWR_PIN (trace (powerDown d)) = Some HIGH).
  { rewrite Htr. apply pinLevel_app. reflexivity. }
  split; [exact Htr|]. split; [exact Hpin|]. split; [reflexivity|].
  unfold loop. rewrite Hs.
  eexists. split; [reflexivity|]. split; [reflexivity|].
  split; [discriminate|]. split; [discriminate|].
  destruct (sleepNow_frame (wake e) (powerDown d)) as (_ & _ & Hrt & _).
  split; [exact Hrt|].
  destruct (wake e); unfold sleepNow; cbn [isr].
  - split.
    + change (trace (set_state STATE_CONFIG (emit [Delay 200]
                (set_wdtSleepCount (u8 (wdtSleepCount (emit [Sleep] (powerDown d)) + 1))
                   (emit [Sleep] (powerDown d))))))
        with ((trace (powerDown d) ++ [Sleep]) ++ [Delay 200]).
      rewrite !pinLevel_app_quiet by reflexivity. exact Hpin.
    + exists []. split; [|left; reflexivity].
      cbn. rewrite <- !app_assoc. reflexivity.
  - split.
    + change (trace (set_state STATE_CONFIG (emit [Delay 200]
                (emit [DetachInt0] (emit [Sleep] (powerDown d))))))
        with (((trace (powerDown d) ++ [Sleep]) ++ [DetachInt0]) ++ [Delay 200]).
      rewrite !pinLevel_app_quiet by reflexivity. exact Hpin.
    + exists [DetachInt0]. split; [|right; reflexivity].
      cbn. rewrite <- !app_assoc. reflexivity.
Qed.

Lemma C10_power_off_leads_to_config_witness :
  trace (powerDown (booted 3))
    = trace (booted 3) ++ [PinWrite UV_SENSOR_PWR_PIN HIGH; Delay 100] ++ playShutdown
              ++ [WdtDisable; AttachInt0]
  /\ pinLevel UV_SENSOR_PWR_PIN (trace (powerDown (booted 3))) = Some HIGH
  /\ runningTimer (powerDown (booted 3)) = 0
  /\ exists d',
      loop wakeEnv (booted 3) = Ok d'
      /\ state d' = STATE_CONFIG
      /\ state d' <> STATE_RUNNING /\ state d' <> STATE_COMPLETED
      /\ runningTimer d' = 0
      /\ pinLevel UV_SENSOR_PWR_PIN (trace d') = Some HIGH
      /\ exists woken,
          trace d' = trace (powerDown (booted 3)) ++ [Sleep] ++ woken ++ [Delay 200]
          /\ (woken = [] \/ woken = [DetachInt0]).
Proof.
  apply (C10_power_off_leads_to_config wakeEnv (booted 3)). reflexivity.
Defined.

End PowerOff.

(** ** A whole session without UV *)

Lemma run_app es1 : forall es2 d,
  run (es1 ++ es2) d = bind (run es1 d) (run es2).
Proof.
  induction es1 as [|e es1 IH]; intros es2 d; cbn; [reflexivity|].
  destruct (loop e d); cbn; [apply IH | reflexivity ..].
Qed.

Lemma consume_nothing budget : consume budget 0 = budget.
Proof.
  unfold consume.
  assert (E : F32.mul (F32.of_Z 1) (F32.div (F32.of_Z (u16 0)) (F32.of_Z 100)) = F32.zero)
    by (vm_compute; reflexivity).
  rewrite E. destruct budget as [[]|[]| |]; reflexivity.
Qed.

Section NoUV.
Import Scenario.

Lemma idle_calls raw n : forall d count timer budget,
  session d count timer budget ->
  0 <= count -> count + Z.of_nat n <= 15 ->
  exists d', run (repeat (quietEnv raw) n) d = Ok d'
             /\ session d' (count + Z.of_nat n) timer budget.
Proof.
  induction n as [|n IH]; intros d count timer budget (Hs & Hc & Ht & Hb) H0 Hn.
  - exists d. split; [reflexivity|]. unfold session. rewrite Z.add_0_r. tauto.
  - cbn [repeat run]. unfold loop at 1. rewrite Hs, Hc.
    destruct (Z.eqb_spec count 15) as [|_]; [lia|]. cbn [onOff quietEnv checkPowerButton bind wake].
    destruct (IH (sleepNow WDT_vect d) (count + 1) timer budget) as (d' & R & S'); try lia.
    + unfold session, sleepNow. cbn. rewrite Hc. unfold u8, wrap.
      rewrite Z.mod_small by lia. tauto.
    + exists d'. split; [exact R|].
      replace (count + Z.of_nat (S n)) with (count + 1 + Z.of_nat n) by lia. exact S'.
Qed.

Lemma sampling_call_nothing d timer budget :
  session d 15 timer budget ->
  0 <= timer < 719 ->
  F32.leb budget F32.zero = false ->
  exists d', loop (quietEnv 0) d = Ok d' /\ session d' 1 (timer + 1) budget.
Proof.
  intros (Hs & Hc & Ht & Hb) Hr Hpos. unfold loop. rewrite Hs, Hc. cbn.
  rewrite Ht. unfold u16, wrap. rewrite Z.mod_small by lia.
  destruct (Z.eqb_spec (timer + 1) MAX_RUNNING_TIME) as [E|_]; [unfold MAX_RUNNING_TIME in E; lia|].
  match goal with |- context [sample ?e ?x] =>
    destruct (sample_frame e x) as (Hs2 & Ht2 & Hm2 & _) end.
  cbn in Hs2, Ht2, Hm2. rewrite Hb, consume_nothing in Hm2.
  rewrite Hm2, Hpos. eexists. split; [reflexivity|].
  unfold session, sleepNow. cbn. rewrite Hs2, Ht2, Hm2. tauto.
Qed.

Lemma one_minute_nothing d timer budget :
  session d 1 timer budget ->
  0 <= timer < 719 ->
  F32.leb budget F32.zero = false ->
  exists d', run (minute 0) d = Ok d' /\ session d' 1 (timer + 1) budget.
Proof.
  intros S0 Hr Hpos. unfold minute.
  change (repeat (quietEnv 0) 15) with (repeat (quietEnv 0) 14 ++ [quietEnv 0]).
  rewrite run_app.
  destruct (idle_calls 0 14 d 1 timer budget S0) as (d1 & R1 & S1); [lia | lia |].
  rewrite R1. cbn [bind run].
  destruct (sampling_call_nothing d1 timer budget S1 Hr Hpos) as (d2 & R2 & S2).
  rewrite R2. exists d2. split; [reflexivity | exact S2].
Qed.

Lemma minutes_nothing n : forall d timer budget,
  session d 1 timer budget ->
  0 <= timer -> timer + Z.of_nat n <= 719 ->
  F32.leb budget F32.zero = false ->
  exists d', run (minutes n 0) d = Ok d' /\ session d' 1 (timer + Z.of_nat n) budget.
Proof.
  induction n as [|n IH]; intros d timer budget S0 H0 Hn Hpos.
  - exists d. split; [reflexivity|]. rewrite Z.add_0_r. exact S0.
  - cbn [minutes]. rewrite run_app.
    destruct (one_minute_nothing d timer budget S0) as (d1 & R1 & S1); [lia | exact Hpos |].
    rewrite R1. cbn [bind].
    destruct (IH d1 (timer + 1) budget S1) as (d2 & R2 & S2); [lia | lia | exact Hpos |].
    exists d2. split; [exact R2|].
    replace (timer + Z.of_nat (S n)) with (timer + 1 + Z.of_nat n) by lia. exact S2.
Qed.

(** X17.  A session started with a positive budget and left alone where
    there is no UV keeps its budget for 719 minutes and is powered off,
    not completed, by the 720th. *)
Theorem session_without_uv_ends_in_power_off d budget :
  session d 1 0 budget ->
  F32.leb budget F32.zero = false ->
  (exists d', run (minutes 719 0) d = Ok d' /\ session d' 1 719 budget)
  /\ (exists d', run (minutes 719 0 ++ minute 0) d = Ok d'
                 /\ state d' = STATE_POWER_OFF /\ minutesToBurn d' = budget).
Proof.
  intros S0 Hpos.
  destruct (minutes_nothing 719 d 0 budget S0) as (d1 & R1 & S1); [lia | lia | exact Hpos |].
  split; [exists d1; split; [exact R1 | exact S1]|].
  rewrite run_app, R1. cbn [bind]. unfold minute.
  change (repeat (quietEnv 0) 15) with (repeat (quietEnv 0) 14 ++ [quietEnv 0]).
  rewrite run_app.
  destruct (idle_calls 0 14 d1 1 719 budget S1) as (d2 & R2 & (Hs & Hc & Ht & Hb)); [lia | lia |].
  rewrite R2. cbn [bind run]. unfold loop. rewrite Hs, Hc. cbn. rewrite Ht. cbn.
  eexists. split; [reflexivity|]. split; [reflexivity | exact Hb].
Qed.

End NoUV.

(** ** Supply voltage: the arithmetic of [getBandgap] *)

Lemma to_int16_small x : 0 <= x < 2 ^ 15 -> to_int16 x = x.
Proof.
  intros H. unfold to_int16.
  rewrite Z.mod_small by (change (2 ^ 15) with 32768 in H; change (2 ^ 16) with 65536; lia).
  destruct (Z.ltb_spec x (2 ^ 15)); [reflexivity | lia].
Qed.

Lemma bandgap_quotient adc :
  4 <= adc <= 1023 ->
  106 <= (1080288 / adc + 5) / 10 <= 27007
  /\ ((1080288 / adc + 5) / 10 <= 270 <-> 400 <= adc).
Proof.
  intros H.
  assert (Hq : 1055 <= 1080288 / adc <= 270072).
  { split.
    - apply Z.div_le_lower_bound; lia.
    - apply Z.div_le_upper_bound; lia. }
  assert (Hlow : 1080288 / adc <= 2704 <-> 400 <= adc).
  { split; intros A.
    - destruct (Z_lt_le_dec adc 400) as [B|B]; [|exact B].
      assert (2707 <= 1080288 / adc) by (apply Z.div_le_lower_bound; lia). lia.
    - assert (1080288 / adc < 2705) by (apply Z.div_lt_upper_bound; lia). lia. }
  split.
  - split.
    + apply Z.div_le_lower_bound; lia.
    + assert ((1080288 / adc + 5) / 10 < 27008) by (apply Z.div_lt_upper_bound; lia). lia.
  - rewrite <- Hlow. split; intros A.
    + assert (1080288 / adc + 5 < 2710); [|lia].
      destruct (Z_lt_le_dec (1080288 / adc + 5) 2710) as [B|B]; [exact B|].
      assert (271 <= (1080288 / adc + 5) / 10) by (apply Z.div_le_lower_bound; lia). lia.
    + assert ((1080288 / adc + 5) / 10 < 271); [|lia].
      apply Z.div_lt_upper_bound; lia.
Qed.

Section Supply.
Import Scenario.

(** X1.  For a conversion result from 4 to 1023 the supply reading is
    [(1080288 / ADC + 5) / 10] without 16-bit overflow, between 106 and
    27007, and it is at or below the low-battery threshold exactly when
    the conversion result is 400 or more; so a sampling cycle fed with it
    plays the low-battery tone exactly then. *)
Theorem getBandgap_low_battery_iff (adc : Z) (e : Env) (d : Device) :
  4 <= adc <= 1023 ->
  getBandgap adc = Some (vcc e) ->
  vcc e = (1080288 / adc + 5) / 10
  /\ 106 <= vcc e <= 27007
  /\ (vcc e <= MIN_BATT_VOLTS <-> 400 <= adc)
  /\ trace (sample e d)
     = trace d ++ [ReadVcc] ++ (if 400 <=? adc then lowBatteryTone else shortBeep)
               ++ measureEffects.
Proof.
  intros Hr Hg.
  destruct (bandgap_quotient adc Hr) as (Hb & Hlow).
  unfold getBandgap in Hg. destruct (Z.eqb_spec adc 0) as [|_]; [lia|].
  change (InternalReferenceVoltage * 1023) with 1080288 in Hg.
  rewrite to_int16_small in Hg by (change (2 ^ 15) with 32768; lia).
  injection Hg as Hv. rewrite <- Hv.
  split; [reflexivity|]. split; [exact Hb|]. split; [exact Hlow|].
  unfold sample, doMeasure. cbn. rewrite <- Hv.
  destruct (Z.leb_spec ((1080288 / adc + 5) / 10) MIN_BATT_VOLTS) as [A|A];
    destruct (Z.leb_spec 400 adc) as [B|B]; unfold MIN_BATT_VOLTS in *;
    try (exfalso; lia); cbn; rewrite <- !app_assoc; reflexivity.
Qed.

Lemma getBandgap_low_battery_iff_witness :
  vcc (supplyEnv 270) = (1080288 / 400 + 5) / 10
  /\ 106 <= vcc (supplyEnv 270) <= 27007
  /\ (vcc (supplyEnv 270) <= MIN_BATT_VOLTS <-> 400 <= 400)
  /\ trace (sample (supplyEnv 270) (running 15 5 (F32.of_Z 67)))
     = trace (running 15 5 (F32.of_Z 67)) ++ [ReadVcc]
       ++ (if 400 <=? 400 then lowBatteryTone else shortBeep) ++ measureEffects.
Proof.
  apply (getBandgap_low_battery_iff 400 (supplyEnv 270) (running 15 5 (F32.of_Z 67)));
    [lia | reflexivity].
Defined.

(** X2.  The reading falls as the conversion result rises: a higher
    result of the conversion never gives a higher supply reading. *)
Theorem getBandgap_antitone (adc1 adc2 v1 v2 : Z) :
  4 <= adc1 -> adc1 <= adc2 -> adc2 <= 1023 ->
  getBandgap adc1 = Some v1 -> getBandgap adc2 = Some v2 ->
  v2 <= v1.
Proof.
  intros H1 H12 H2 G1 G2.
  destruct (bandgap_quotient adc1 ltac:(lia)) as (B1 & _).
  destruct (bandgap_quotient adc2 ltac:(lia)) as (B2 & _).
  unfold getBandgap in G1, G2.
  destruct (Z.eqb_spec adc1 0) as [|_]; [lia|]. destruct (Z.eqb_spec adc2 0) as [|_]; [lia|].
  change (InternalReferenceVoltage * 1023) with 1080288 in G1, G2.
  rewrite to_int16_small in G1 by (change (2 ^ 15) with 32768; lia).
  rewrite to_int16_small in G2 by (change (2 ^ 15) with 32768; lia).
  injection G1 as <-. injection G2 as <-.
  apply Z.div_le_mono; [lia|].
  apply Z.add_le_mono_r. apply Z.div_le_compat_l; lia.
Qed.

Lemma getBandgap_antitone_witness : 270 <= 330.
Proof.
  apply (getBandgap_antitone 327 400 330 270); [lia | lia | lia | reflexivity | reflexivity].
Defined.

(** X3.  Outside that range the reading is not a voltage: a conversion
    result of 1, 2 or 3 overflows the 16-bit [int] (once, or twice for
    1) and reads negative, hence as a low battery, and a result of 0
    divides by zero. *)
Theorem getBandgap_small_readings_wrap (adc : Z) :
  0 <= adc <= 3 ->
  (adc = 0 -> getBandgap adc = None)
  /\ (adc <> 0 -> exists v, getBandgap adc = Some v /\ v < 0 /\ v <= MIN_BATT_VOLTS
                            /\ v = (1080288 / adc + 5) / 10
                                   - (if adc =? 1 then 2 * 65536 else 65536)).
Proof.
  intros H.
  assert (E : adc = 0 \/ adc = 1 \/ adc = 2 \/ adc = 3) by lia.
  destruct E as [-> | [-> | [-> | ->]]]; (split; [intros; try reflexivity; lia|]); intros A;
    try contradiction; eexists; (split; [reflexivity|]);
    (split; [vm_compute; reflexivity
            | split; [vm_compute; discriminate | vm_compute; reflexivity]]).
Qed.

Lemma getBandgap_small_readings_wrap_witness :
  exists v, getBandgap 3 = Some v /\ v < 0 /\ v <= MIN_BATT_VOLTS
            /\ v = (1080288 / 3 + 5) / 10 - (if 3 =? 1 then 2 * 65536 else 65536).
Proof.
  apply (proj2 (getBandgap_small_readings_wrap 3 ltac:(lia))). discriminate.
Defined.

End Supply.

(** ** Configuration as a whole *)

Lemma config_frame_refl d : config_frame d d.
Proof. unfold config_frame. tauto. Qed.

Lemma config_frame_trans d1 d2 d3 :
  config_frame d1 d2 -> config_frame d2 d3 -> config_frame d1 d3.
Proof. unfold config_frame. intuition congruence. Qed.

Lemma config_frame_setTimer t d : config_frame d (set_setTimer t d).
Proof. unfold config_frame. cbn. tauto. Qed.

Lemma config_frame_nextSpf l d : config_frame d (nextSpf l d).2.
Proof.
  unfold config_frame, nextSpf. destruct (spfIndex l <? 6); cbn;
    rewrite eeWrites_app, app_nil_r; tauto.
Qed.

Lemma config_frame_nextSkin l d : config_frame d (nextSkin l d).2.
Proof.
  unfold config_frame, nextSkin. destruct (tempSkinType _ <? 6); cbn;
    rewrite eeWrites_app, app_nil_r; tauto.
Qed.

Lemma doSkinButton_frame b l d :
  exists l' d', doSkinButton b l d = Continue l' d' /\ config_frame d d'.
Proof.
  unfold doSkinButton. destruct b as [| |t].
  - exists l, d. split; [reflexivity | apply config_frame_refl].
  - exists l, d. split; [reflexivity | apply config_frame_refl].
  - pose proof (config_frame_nextSkin l (set_setTimer t d)) as F.
    destruct (nextSkin l (set_setTimer t d)) as [l' d']. exists l', d'.
    split; [reflexivity|]. eapply config_frame_trans; [apply config_frame_setTimer | exact F].
Qed.

(** A pass goes on within the frame, or ends in the timeout, or in a
    hold without end, or in the commit of the locals as they are on a
    device within the frame. *)
Lemma config_iter_cases p l d :
  (exists l' d', config_iter p l d = Continue l' d' /\ config_frame d d')
  \/ config_iter p l d = Exit (Ok (set_state STATE_POWER_OFF d))
  \/ (exists d', config_iter p l d = Exit (Hang d') /\ config_frame d d')
  \/ (exists d0, config_iter p l d = Exit (commit l d0) /\ config_frame d d0).
Proof.
  unfold config_iter. destruct (_ <? SET_TIMEOUT).
  - unfold doSetButton. destruct (setBtn p) as [| |tp td [[tr tu]|]].
    + left. apply doSkinButton_frame.
    + left. apply doSkinButton_frame.
    + destruct (_ <? LONG_CLICK_MS).
      * left.
        pose proof (config_frame_nextSpf l (set_setTimer tr (set_setTimer tp d))) as F.
        destruct (nextSpf l (set_setTimer tr (set_setTimer tp d))) as [l1 d1]. cbn in F.
        destruct (doSkinButton_frame (skinBtn p) l1 d1) as (l' & d' & E & F').
        exists l', d'. split; [exact E|].
        eapply config_frame_trans; [|exact F'].
        eapply config_frame_trans; [|exact F].
        eapply config_frame_trans; apply config_frame_setTimer.
      * right. right. right. eexists. split; [reflexivity|].
        eapply config_frame_trans; apply config_frame_setTimer.
    + right. right. left. eexists. split; [reflexivity|]. apply config_frame_setTimer.
  - right. left. reflexivity.
Qed.

Lemma nextSpf_selection l d d0 :
  selection_ok l d0 -> selection_ok (nextSpf l d).1 d0.
Proof.
  intros [Hs Ht]. unfold selection_ok. rewrite (nextSpf_cycle l d Hs).
  split; [destruct (Z.eqb_spec (spfIndex l) 6); lia|].
  unfold nextSpf. destruct (spfIndex l <? 6); exact Ht.
Qed.

Lemma nextSkin_selection l d d0 :
  selection_ok l d0 -> selection_ok (nextSkin l d).1 d0.
Proof.
  intros [Hs Ht]. unfold selection_ok.
  destruct (skinTypeNotPressed l) eqn:E.
  - destruct (nextSkin_first l d E) as [H1 H2]. rewrite H2, H1.
    split; [|lia]. unfold nextSkin. rewrite E. cbn. exact Hs.
  - destruct (nextSkin_cycle l d E Ht) as [H1 H2]. rewrite H2, H1.
    split; [|destruct (Z.eqb_spec (tempSkinType l) 6); lia].
    unfold nextSkin. rewrite E. destruct (tempSkinType l <? 6); exact Hs.
Qed.

Lemma selection_ok_frame l d d' :
  skinType d' = skinType d -> selection_ok l d -> selection_ok l d'.
Proof. unfold selection_ok. intros ->. tauto. Qed.

Lemma config_iter_selection p l d l' d' :
  config_iter p l d = Continue l' d' -> selection_ok l d -> selection_ok l' d'.
Proof.
  intros E Hl.
  assert (Hsk : skinType d' = skinType d)
    by (apply config_iter_continue in E; tauto).
  apply (selection_ok_frame l' d d' Hsk).
  revert E. unfold config_iter. destruct (_ <? SET_TIMEOUT); [|discriminate].
  assert (Hskin : forall l1 d1, selection_ok l1 d ->
            doSkinButton (skinBtn p) l1 d1 = Continue l' d' -> selection_ok l' d).
  { intros l1 d1 H1. unfold doSkinButton. destruct (skinBtn p) as [| |t].
    - intros [= <- <-]. exact H1.
    - intros [= <- <-]. exact H1.
    - pose proof (nextSkin_selection l1 (set_setTimer t d1) d H1) as S.
      destruct (nextSkin l1 (set_setTimer t d1)) as [l2 d2]. intros [= <- <-]. exact S. }
  unfold doSetButton. destruct (setBtn p) as [| |tp td [[tr tu]|]]; try (apply Hskin; exact Hl).
  - destruct (_ <? LONG_CLICK_MS); [|discriminate].
    pose proof (nextSpf_selection l (set_setTimer tr (set_setTimer tp d)) d Hl) as S.
    destruct (nextSpf l (set_setTimer tr (set_setTimer tp d))) as [l2 d2].
    apply Hskin. exact S.
  - discriminate.
Qed.

Lemma config_entry_selection t d :
  selection_ok (config_entry t d).1 (config_entry t d).2.
Proof. unfold selection_ok, config_entry. cbn. split; [lia | reflexivity]. Qed.

Section Selections.
Import Scenario.

(** X4.  The selections stay within their cycles through any number of
    passes of the configuration loop: the SPF index within 1..6, the
    temporary skin type equal to the device's until the first press of the
    skin button and within 1..6 afterwards, so never 0 again.  [doConfig]
    starts its loop with selections of that kind. *)
Theorem config_loop_keeps_selections (ps : list Poll) (l l' : Locals) (d d' : Device) :
  selection_ok l d ->
  config_loop ps l d = Continue l' d' ->
  selection_ok l' d'
  /\ forall t d0, selection_ok (config_entry t d0).1 (config_entry t d0).2.
Proof.
  intros Hl E. split.
  - revert l d Hl E. induction ps as [|p ps IH]; intros l d Hl; cbn.
    + intros [= <- <-]. exact Hl.
    + destruct (config_iter p l d) as [l1 d1|r] eqn:C; [|discriminate].
      intros E. eapply IH; [|exact E]. eapply config_iter_selection; eassumption.
  - intros t d0. apply config_entry_selection.
Qed.

Lemma config_loop_keeps_selections_witness :
  selection_ok (mkLocals 6 1 false)
    (reached (doConfig 0 (map shortSet [1000; 2000; 3000; 4000; 5000]
                          ++ map skinPress [6000; 7000; 8000; 9000; 10000; 11000; 12000])
                       (booted 3)))
  /\ forall t d0, selection_ok (config_entry t d0).1 (config_entry t d0).2.
Proof.
  apply (config_loop_keeps_selections
           (map shortSet [1000; 2000; 3000; 4000; 5000]
            ++ map skinPress [6000; 7000; 8000; 9000; 10000; 11000; 12000])
           (entered 3).1 (mkLocals 6 1 false) (entered 3).2).
  - split; [cbn; lia | reflexivity].
  - vm_compute. reflexivity.
Defined.

End Selections.

Lemma config_loop_cases ps : forall l d,
  (exists l' d', config_loop ps l d = Continue l' d' /\ config_frame d d'
                 /\ (selection_ok l d -> selection_ok l' d'))
  \/ (exists d1, config_loop ps l d = Exit (Ok (set_state STATE_POWER_OFF d1))
                 /\ config_frame d d1)
  \/ (exists d', config_loop ps l d = Exit (Hang d') /\ config_frame d d')
  \/ (exists l0 d0, config_loop ps l d = Exit (commit l0 d0) /\ config_frame d d0
                    /\ (selection_ok l d -> selection_ok l0 d0)).
Proof.
  induction ps as [|p ps IH]; intros l d; cbn.
  - left. exists l, d. split; [reflexivity|]. split; [apply config_frame_refl | tauto].
  - destruct (config_iter_cases p l d)
      as [(l1 & d1 & E & F) | [E | [(d1 & E & F) | (d0 & E & F)]]]; rewrite E.
    + pose proof (config_iter_selection p l d l1 d1 E) as S.
      destruct (IH l1 d1)
        as [(l2 & d2 & E2 & F2 & S2) | [(d2 & E2 & F2) | [(d2 & E2 & F2) | (l0 & d0 & E2 & F2 & S2)]]].
      * left. exists l2, d2. split; [exact E2|].
        split; [eapply config_frame_trans; eassumption | tauto].
      * right. left. exists d2. split; [exact E2 | eapply config_frame_trans; eassumption].
      * right. right. left. exists d2.
        split; [exact E2 | eapply config_frame_trans; eassumption].
      * right. right. right. exists l0, d0. split; [exact E2|].
        split; [eapply config_frame_trans; eassumption | tauto].
    + right. left. exists d. split; [reflexivity | apply config_frame_refl].
    + right. right. left. exists d1. split; [reflexivity | exact F].
    + right. right. right. exists l, d0. split; [reflexivity|]. split; [exact F|].
      apply selection_ok_frame. destruct F as (_ & _ & F & _). exact F.
Qed.

Lemma storeSkinType_cases l d :
  skinType (storeSkinType l d) = tempSkinType l
  /\ runningTimer (storeSkinType l d) = runningTimer d
  /\ wdtSleepCount (storeSkinType l d) = wdtSleepCount d
  /\ ((tempSkinType l = skinType d /\ storeSkinType l d = d)
      \/ (tempSkinType l <> skinType d
          /\ eeprom (storeSkinType l d) = <[EE_SKIN_TYPE := u8 (tempSkinType l)]> (eeprom d)
          /\ trace (storeSkinType l d)
             = trace d ++ [EEWrite EE_SKIN_TYPE (u8 (tempSkinType l))])).
Proof.
  unfold storeSkinType. destruct (Z.eqb_spec (tempSkinType l) (skinType d)) as [E|E].
  - repeat split; try congruence. left. split; [exact E | reflexivity].
  - cbn. repeat split. right. repeat split. exact E.
Qed.


Lemma config_entry_frame t d :
  let d0 := (config_entry t d).2 in
  state d0 = state d /\ skinType d0 = skinType d /\ minutesToBurn d0 = minutesToBurn d
  /\ eeprom d0 = eeprom d /\ eeWrites (trace d0) = eeWrites (trace d)
  /\ runningTimer d0 = 0 /\ wdtSleepCount d0 = 0.
Proof.
  cbn. rewrite eeWrites_app. cbn. rewrite app_nil_r. repeat split.
Qed.

(** What [doConfig] can have done to the store and the skin type,
    however it ends. *)
Lemma doConfig_store_cases t ps d :
  let d' := reached (doConfig t ps d) in
  ((eeprom d' = eeprom d /\ skinType d' = skinType d
    /\ eeWrites (trace d') = eeWrites (trace d))
   \/ (skinType d' <> skinType d
       /\ eeprom d' = <[EE_SKIN_TYPE := u8 (skinType d')]> (eeprom d)
       /\ eeWrites (trace d') = eeWrites (trace d) ++ [(EE_SKIN_TYPE, u8 (skinType d'))]))
  /\ (0 <= skinType d < 256 -> 0 <= skinType d' < 256).
Proof.
  unfold doConfig.
  destruct (config_entry_frame t d) as (_ & Hk & _ & He & Hw & _).
  pose proof (config_entry_selection t d) as Hsel.
  destruct (config_entry t d) as [l0 d0]. cbn in Hk, He, Hw, Hsel.
  destruct (config_loop_cases ps l0 d0)
    as [(l1 & d1 & E & F & _) | [(d1 & E & F) | [(d1 & E & F) | (l1 & d1 & E & F & S)]]];
    rewrite E; cbv zeta; cbn [reached];
    destruct F as (_ & _ & Fk & _ & _ & Fe & Fw).
  - split; [left; repeat split|]; congruence.
  - change (eeprom (set_state STATE_POWER_OFF d1)) with (eeprom d1).
    change (skinType (set_state STATE_POWER_OFF d1)) with (skinType d1).
    change (trace (set_state STATE_POWER_OFF d1)) with (trace d1).
    split; [left; repeat split|]; congruence.
  - split; [left; repeat split|]; congruence.
  - destruct (commit_reached l1 d1) as (_ & Ce & Ck & Cw). rewrite Ce, Ck, Cw.
    destruct (storeSkinType_cases l1 d1) as (Sk & _ & _ & Hst). split.
    + destruct Hst as [[Heq ->] | (Hne & Se & St)].
      * left. repeat split; congruence.
      * right. rewrite Sk, Se, St, eeWrites_app. cbn.
        split; [congruence|]. split; congruence.
    + intros Hb. rewrite Sk. destruct (S Hsel) as [_ Ht].
      destruct (skinTypeNotPressed l1); [rewrite Ht, Fk, Hk; exact Hb | lia].
Qed.

Section WholeConfig.
Import Scenario.

(** X5.  However [doConfig] ends (timeout, commit, a read past a table,
    a button never released, or still looping), it has written to the
    store at most once, and then the new skin type to the skin-type
    address; every other address reads as before, and with no write the
    skin type is the one it started with. *)
Theorem doConfig_writes_at_most_once (t : Z) (ps : list Poll) (d : Device) :
  let d' := reached (doConfig t ps d) in
  (forall a, a <> EE_SKIN_TYPE -> eeprom d' !! a = eeprom d !! a)
  /\ ((eeprom d' = eeprom d /\ skinType d' = skinType d
       /\ eeWrites (trace d') = eeWrites (trace d))
      \/ (skinType d' <> skinType d
          /\ eeprom d' = <[EE_SKIN_TYPE := u8 (skinType d')]> (eeprom d)
          /\ eeWrites (trace d') = eeWrites (trace d) ++ [(EE_SKIN_TYPE, u8 (skinType d'))])).
Proof.
  destruct (doConfig_store_cases t ps d) as [Hcases _].
  cbv zeta in *. split; [|exact Hcases].
  intros a Ha. destruct Hcases as [(-> & _) | (_ & -> & _)]; [reflexivity|].
  apply lookup_insert_ne. congruence.
Qed.



End WholeConfig.

(** ** The store across the whole life of the device *)

Lemma alarm_rounds_store t rounds : forall d,
  eeprom (reached (alarm_rounds t rounds d)) = eeprom d
  /\ skinType (reached (alarm_rounds t rounds d)) = skinType d.
Proof.
  induction rounds as [|a rounds IH]; intros d; cbn; [split; reflexivity|].
  destruct (_ <? MAX_ALARM_TIME); [|split; reflexivity].
  destruct (_ || _); [split; reflexivity|].
  match goal with |- context [alarm_rounds t rounds ?x] => destruct (IH x) as [H1 H2] end.
  cbn in H1, H2. split; assumption.
Qed.

Lemma checkPowerButton_store b d :
  exists d1, (checkPowerButton b d = Stay d1 \/ checkPowerButton b d = Off d1
              \/ checkPowerButton b d = Stuck d1)
             /\ eeprom d1 = eeprom d /\ skinType d1 = skinType d.
Proof.
  unfold checkPowerButton. destruct b as [| |t [u|]]; cbn.
  - exists d. split; [left; reflexivity | split; reflexivity].
  - exists d. split; [left; reflexivity | split; reflexivity].
  - destruct (_ <? LONG_CLICK_MS); eexists.
    + split; [left; reflexivity | split; reflexivity].
    + split; [right; left; reflexivity | split; reflexivity].
  - eexists. split; [right; right; reflexivity | split; reflexivity].
Qed.

(** Outside configuration a call of [loop()] does not touch the store or
    the skin type. *)
Lemma loop_store e d :
  state d <> STATE_CONFIG ->
  eeprom (reached (loop e d)) = eeprom d /\ skinType (reached (loop e d)) = skinType d.
Proof.
  intros Hs. unfold loop. destruct (state d); [| contradiction | |].
  - unfold sleepNow. destruct (wake e); split; reflexivity.
  - destruct (wdtSleepCount d =? 15).
    + cbv zeta. destruct (runningTimer _ =? MAX_RUNNING_TIME); [split; reflexivity|].
      match goal with |- context [checkPowerButton ?b ?x] =>
        destruct (checkPowerButton_store b x) as (d1 & [-> | [-> | ->]] & He & Hk) end;
        cbn in He, Hk; try (split; assumption).
      destruct (F32.leb _ _); unfold sleepNow, sample, doMeasure;
        destruct (wake e); cbn; destruct (_ <=? MIN_BATT_VOLTS); split; assumption.
    + destruct (checkPowerButton_store (onOff e) d) as (d1 & [-> | [-> | ->]] & He & Hk);
        try (split; assumption).
      unfold sleepNow. destruct (wake e); split; assumption.
  - unfold playAlarm. destruct (alarm_rounds_store (t_alarm e) (alarm e) d) as [He Hk].
    destruct (alarm_rounds _ _ d); cbn in *; split; assumption.
Qed.

Lemma loop_config_store e d :
  state d = STATE_CONFIG ->
  eeprom (reached (loop e d)) = eeprom (reached (doConfig (t_enter e) (polls e) d))
  /\ skinType (reached (loop e d)) = skinType (reached (doConfig (t_enter e) (polls e) d)).
Proof.
  intros Hs. unfold loop. rewrite Hs.
  destruct (doConfig _ _ d) as [d1| | |]; cbn; try (split; reflexivity).
  destruct (decide _); [split; reflexivity|].
  unfold sleepNow. destruct (wake e); split; reflexivity.
Qed.

Lemma loop_store_ok e d : store_ok d -> store_ok (reached (loop e d)).
Proof.
  intros (H1 & H2 & H3 & Hb). unfold store_ok, EEPROM_read in *.
  destruct (decide (state d = STATE_CONFIG)) as [Hs|Hs].
  - destruct (loop_config_store e d Hs) as [-> ->].
    destruct (doConfig_store_cases (t_enter e) (polls e) d) as [Hc Hbyte]. cbv zeta in *.
    specialize (Hbyte Hb).
    remember (reached (doConfig (t_enter e) (polls e) d)) as d' eqn:Hd'. clear Hd'.
    destruct Hc as [(-> & -> & _) | (_ & -> & _)]; [tauto|].
    rewrite !lookup_insert_ne by (vm_compute; discriminate). rewrite lookup_insert_eq. cbn.
    repeat split; try assumption; try lia.
    unfold u8, wrap. apply Z.mod_small. lia.
  - destruct (loop_store e d Hs) as [-> ->]. tauto.
Qed.

Lemma run_store_ok es : forall d, store_ok d -> store_ok (reached (run es d)).
Proof.
  induction es as [|e es IH]; intros d H; cbn; [exact H|].
  pose proof (loop_store_ok e d H) as H1.
  destruct (loop e d) as [d1| | |]; cbn in *; [apply IH|..]; exact H1.
Qed.

Section Store.
Import Scenario.

(** X7.  Once the checkbytes are in the store and the variable
    [skinType] is a byte that agrees with the stored skin type, this
    stays so through any calls of [loop()], whatever the inputs and
    however the last call ends. *)
Theorem store_stays_initialised (es : list Env) (d : Device) :
  store_ok d -> store_ok (reached (run es d)).
Proof. apply run_store_ok. Qed.

Lemma store_stays_initialised_witness :
  store_ok (reached (run [wakeEnv;
                          mkEnv 0 [skinPress 500; skinPress 900; longSet 3000]
                                Quiet 330 0 0 [] WDT_vect;
                          quietEnv 120]
                         (booted 3))).
Proof.
  apply (store_stays_initialised
           [wakeEnv;
            mkEnv 0 [skinPress 500; skinPress 900; longSet 3000] Quiet 330 0 0 [] WDT_vect;
            quietEnv 120] (booted 3)).
  repeat split; vm_compute; try reflexivity; discriminate.
Defined.

(** X8.  From such a device, a reset after any calls of [loop()] finds
    the store initialised: [setup()] writes nothing and loads the very
    skin type the device had before the reset.  What a commit stored is
    what the next boot reads. *)
Theorem skin_type_survives_reset
    (es : list Env) (d : Device) (sensor_ok : bool) (raw v : Z) :
  store_ok d ->
  let d1 := reached (run es d) in
  let d2 := reached (setup sensor_ok raw v (power_on (eeprom d1))) in
  skinType d2 = skinType d1
  /\ eeprom d2 = eeprom d1
  /\ eeWrites (trace d2) = []
  /\ store_ok d2.
Proof.
  intros H. cbv zeta. pose proof (run_store_ok es d H) as (H1 & H2 & H3 & Hb).
  set (d1 := reached (run es d)) in *.
  assert (Hc : (EEPROM_read EE_CHECKBYTE_1 (power_on (eeprom d1)) =? 0xBA)
               && (EEPROM_read EE_CHECKBYTE_2 (power_on (eeprom d1)) =? 0xDA) = true).
  { change (EEPROM_read EE_CHECKBYTE_1 (power_on (eeprom d1)))
      with (EEPROM_read EE_CHECKBYTE_1 d1).
    change (EEPROM_read EE_CHECKBYTE_2 (power_on (eeprom d1)))
      with (EEPROM_read EE_CHECKBYTE_2 d1).
    rewrite H1, H2. reflexivity. }
  destruct (setup_initialised sensor_ok raw v (eeprom d1) Hc) as (Sk & Se & Sw).
  change (EEPROM_read EE_SKIN_TYPE (power_on (eeprom d1)))
    with (EEPROM_read EE_SKIN_TYPE d1) in Sk. rewrite H3 in Sk.
  split; [exact Sk|]. split; [exact Se|]. split; [exact Sw|].
  unfold store_ok, EEPROM_read in *. rewrite Se, Sk. tauto.
Qed.

Lemma skin_type_survives_reset_witness :
  skinType (reached (setup true 0 330
              (power_on (eeprom (reached (run [wakeEnv;
                 mkEnv 0 [skinPress 500; skinPress 900; longSet 3000]
                       Quiet 330 0 0 [] WDT_vect] (booted 3)))))))
  = 2.
Proof.
  refine (eq_trans (proj1 (skin_type_survives_reset
           [wakeEnv; mkEnv 0 [skinPress 500; skinPress 900; longSet 3000]
                           Quiet 330 0 0 [] WDT_vect]
           (booted 3) true 0 330 _)) _).
  - repeat split; vm_compute; try reflexivity; discriminate.
  - vm_compute. reflexivity.
Defined.

End Store.

(** ** The running timer *)

Lemma commit_state l d :
  runningTimer (reached (commit l d)) = runningTimer d
  /\ (state (reached (commit l d)) = state d
      \/ state (reached (commit l d)) = STATE_RUNNING).
Proof.
  unfold commit. destruct (storeSkinType_cases l d) as (_ & Hr & _ & Hst).
  assert (Hs : state (storeSkinType l d) = state d).
  { destruct Hst as [[_ ->] | _]; [reflexivity|].
    unfold storeSkinType. destruct (_ =? _); reflexivity. }
  set (d1 := storeSkinType l d) in *.
  destruct (calculateTimeToBurn _ _) as [d3|] eqn:C.
  - apply calculateTimeToBurn_Some in C as [b ->]. cbn. split; [exact Hr | right; reflexivity].
  - cbn. split; [exact Hr | left; exact Hs].
Qed.

(** However [doConfig] ends, the running timer is 0, and the state is
    the one it was entered in, or power-off, or running. *)
Lemma doConfig_timer t ps d :
  runningTimer (reached (doConfig t ps d)) = 0
  /\ (state (reached (doConfig t ps d)) = state d
      \/ state (reached (doConfig t ps d)) = STATE_POWER_OFF
      \/ state (reached (doConfig t ps d)) = STATE_RUNNING).
Proof.
  unfold doConfig.
  destruct (config_entry_frame t d) as (Hs & _ & _ & _ & _ & Hr & _).
  destruct (config_entry t d) as [l0 d0]. cbn in Hs, Hr.
  destruct (config_loop_cases ps l0 d0)
    as [(l1 & d1 & E & F & _) | [(d1 & E & F) | [(d1 & E & F) | (l1 & d1 & E & F & _)]]];
    rewrite E; cbn [reached]; destruct F as (Fs & Ft & _).
  - split; [congruence | left; congruence].
  - split; [cbn; congruence | right; left; reflexivity].
  - split; [congruence | left; congruence].
  - destruct (commit_state l1 d1) as (Ct & Cs). rewrite Ct.
    split; [congruence|]. destruct Cs as [Cs|Cs]; [left; congruence | right; right; exact Cs].
Qed.

Lemma checkPowerButton_timer b d :
  exists d1, (checkPowerButton b d = Stay d1 \/ checkPowerButton b d = Off d1
              \/ checkPowerButton b d = Stuck d1)
             /\ state d1 = state d /\ runningTimer d1 = runningTimer d.
Proof.
  unfold checkPowerButton. destruct b as [| |t [u|]]; cbn.
  - exists d. split; [left; reflexivity | split; reflexivity].
  - exists d. split; [left; reflexivity | split; reflexivity].
  - destruct (_ <? LONG_CLICK_MS); eexists.
    + split; [left; reflexivity | split; reflexivity].
    + split; [right; left; reflexivity | split; reflexivity].
  - eexists. split; [right; right; reflexivity | split; reflexivity].
Qed.

Lemma loop_timer_ok e d : timer_ok d -> timer_ok (reached (loop e d)).
Proof.
  unfold timer_ok, MAX_RUNNING_TIME. intros H. unfold loop. destruct (state d) eqn:Hs.
  - cbn. discriminate.
  - destruct (doConfig_timer (t_enter e) (polls e) d) as (Ht & Hst).
    destruct (doConfig _ _ d) as [d1| | |]; cbn in *; try (intros _; lia).
    destruct (decide _) as [P|P]; cbn; [congruence|].
    destruct (sleepNow_frame (wake e) (emit [WdtEnable] d1)) as (_ & _ & -> & _).
    cbn. intros _. lia.
  - specialize (H eq_refl). destruct (wdtSleepCount d =? 15).
    + cbv zeta.
      change (runningTimer (set_runningTimer ?v _)) with v.
      replace (u16 (runningTimer (set_wdtSleepCount 0 d) + 1)) with (runningTimer d + 1)
        by (cbn; unfold u16, wrap; rewrite Z.mod_small; lia).
      destruct (Z.eqb_spec (runningTimer d + 1) MAX_RUNNING_TIME) as [E|E];
        [cbn; discriminate|].
      match goal with |- context [checkPowerButton ?b ?x] =>
        destruct (checkPowerButton_timer b x) as (d1 & [-> | [-> | ->]] & S1 & T1) end;
        cbn in S1, T1; cbn [reached].
      * destruct (sample_frame e d1) as (S2 & T2 & _).
        destruct (F32.leb _ _); [cbn; discriminate|]. cbn [reached].
        destruct (sleepNow_frame (wake e) (set_wdtSleepCount 0 (sample e d1)))
          as (_ & _ & -> & _).
        cbn. rewrite T2, T1. intros _. unfold MAX_RUNNING_TIME in E. lia.
      * cbn. discriminate.
      * rewrite T1. intros _. unfold MAX_RUNNING_TIME in E. lia.
    + destruct (checkPowerButton_timer (onOff e) d) as (d1 & [-> | [-> | ->]] & S1 & T1);
        cbn [reached].
      * destruct (sleepNow_frame (wake e) d1) as (_ & _ & -> & _). rewrite T1. intros _. lia.
      * cbn. discriminate.
      * rewrite T1. intros _. lia.
  - unfold playAlarm. destruct (alarm_rounds_frame (t_alarm e) (alarm e) d) as [F _].
    destruct (alarm_rounds _ _ d); cbn in *; congruence.
Qed.

Lemma setup_state ok raw v rom :
  state (reached (setup ok raw v (power_on rom))) = STATE_POWER_OFF
  \/ state (reached (setup ok raw v (power_on rom))) = STATE_CONFIG.
Proof.
  unfold setup. destruct (_ && _); destruct ok; (left; reflexivity) || (right; reflexivity).
Qed.

Section Timer.
Import Scenario.

(** X9.  The running timer stays below the ceiling of 720 minutes in
    every running state the device gets to: with it so at the start, it
    is so after any calls of [loop()], whatever the inputs and however the
    last call ends.  (After [setup()] the device is not running, so every
    device starts this way.) *)
Theorem running_timer_below_ceiling (es : list Env) (d : Device) :
  timer_ok d ->
  timer_ok (reached (run es d))
  /\ forall sensor_ok raw v rom, timer_ok (reached (setup sensor_ok raw v (power_on rom))).
Proof.
  intros H. split.
  - revert d H. induction es as [|e es IH]; intros d H; cbn; [exact H|].
    pose proof (loop_timer_ok e d H) as H1.
    destruct (loop e d) as [d1| | |]; cbn in *; [apply IH|..]; exact H1.
  - intros ok raw v rom. unfold timer_ok.
    destruct (setup_state ok raw v rom) as [-> | ->]; discriminate.
Qed.

Lemma running_timer_below_ceiling_witness :
  timer_ok (reached (run (wakeEnv :: commitEnv :: minutes 2 300) (booted 3))).
Proof.
  refine (proj1 (running_timer_below_ceiling
                   (wakeEnv :: commitEnv :: minutes 2 300) (booted 3) _)).
  intros H. vm_compute in H. discriminate.
Defined.

End Timer.

(** ** Time differences across the wrap of [millis()] *)

Lemma u32_elapsed t held :
  0 <= held < 2 ^ 32 -> u32 (u32 (t + held) - t) = held.
Proof.
  intros H. unfold u32, wrap.
  rewrite Zminus_mod_idemp_l. replace (t + held - t) with held by lia.
  apply Z.mod_small. exact H.
Qed.

Section Timing.
Import Scenario.

(** X10.  The power button in the running state, for a press at time
    [t_down] released [held] milliseconds later, the clock being read
    modulo 2^32 (so also when it wraps during the hold).  Held for 1000 ms
    or more, the press ends the session in power-off without a reading or
    a tone, the watchdog being disabled there only in a sampling call;
    held for less, the call does what it does with no press at all, but
    for the time noted in [buttonTime]. *)
Theorem power_button_long_press (e : Env) (d : Device) (t_down held : Z) :
  state d = STATE_RUNNING ->
  u16 (runningTimer d + 1) <> MAX_RUNNING_TIME ->
  0 <= held < 2 ^ 32 ->
  onOff e = Pressed t_down (Some (u32 (t_down + held))) ->
  (LONG_CLICK_MS <= held ->
   exists d', loop e d = Ok d'
              /\ state d' = STATE_POWER_OFF
              /\ minutesToBurn d' = minutesToBurn d
              /\ vccVoltage d' = vccVoltage d
              /\ trace d' = trace d ++ (if wdtSleepCount d =? 15 then [WdtDisable] else []))
  /\ (held < LONG_CLICK_MS ->
      forall d'',
        loop (mkEnv (t_enter e) (polls e) Quiet (vcc e) (uvRaw e) (t_alarm e) (alarm e) (wake e))
             d = Ok d'' ->
        loop e d = Ok (set_buttonTime t_down d'')).
Proof.
  intros Hs Ht Hh Hb. unfold loop. rewrite Hs, Hb. cbn [onOff checkPowerButton].
  change (buttonTime (set_buttonTime t_down ?x)) with t_down.
  rewrite (u32_elapsed t_down held Hh).
  destruct (Z.eqb_spec (u16 (runningTimer d + 1)) MAX_RUNNING_TIME) as [|_]; [contradiction|].
  split.
  - intros Hl. apply Z.ltb_ge in Hl. rewrite Hl.
    destruct (wdtSleepCount d =? 15); cbv zeta.
    + change (runningTimer (set_runningTimer ?v _)) with v.
      change (runningTimer (set_wdtSleepCount 0 d)) with (runningTimer d).
      destruct (Z.eqb_spec (u16 (runningTimer d + 1)) MAX_RUNNING_TIME) as [|_];
        [contradiction|].
      eexists. split; [reflexivity|]. repeat split.
    + eexists. split; [reflexivity|]. cbn. rewrite app_nil_r. repeat split.
  - intros Hl. apply Z.ltb_lt in Hl. rewrite Hl. intros d''.
    destruct (wdtSleepCount d =? 15); cbv zeta.
    + change (runningTimer (set_runningTimer ?v _)) with v.
      change (runningTimer (set_wdtSleepCount 0 d)) with (runningTimer d).
      destruct (Z.eqb_spec (u16 (runningTimer d + 1)) MAX_RUNNING_TIME) as [|_];
        [contradiction|].
      unfold sample, doMeasure, sleepNow. cbn.
      destruct (vcc e <=? MIN_BATT_VOLTS); cbn; destruct (F32.leb _ _);
        try (intros [= <-]; reflexivity);
        destruct (wake e); intros [= <-]; reflexivity.
    + unfold sleepNow. destruct (wake e); intros [= <-]; reflexivity.
Qed.

Lemma power_button_long_press_witness :
  exists d',
    loop (mkEnv 0 [] (Pressed 4294967000 (Some (u32 (4294967000 + 1200)))) 330 300 0 [] WDT_vect)
         (running 15 5 (F32.of_Z 67)) = Ok d'
    /\ state d' = STATE_POWER_OFF
    /\ minutesToBurn d' = minutesToBurn (running 15 5 (F32.of_Z 67))
    /\ vccVoltage d' = vccVoltage (running 15 5 (F32.of_Z 67))
    /\ trace d' = trace (running 15 5 (F32.of_Z 67))
                  ++ (if wdtSleepCount (running 15 5 (F32.of_Z 67)) =? 15
                      then [WdtDisable] else []).
Proof.
  refine (proj1 (power_button_long_press
                   (mkEnv 0 [] (Pressed 4294967000 (Some (u32 (4294967000 + 1200))))
                          330 300 0 [] WDT_vect)
                   (running 15 5 (F32.of_Z 67)) 4294967000 1200 _ _ _ _) _).
  - reflexivity.
  - vm_compute. discriminate.
  - vm_compute. split; [discriminate | reflexivity].
  - reflexivity.
  - vm_compute. discriminate.
Defined.

(** X11.  The inactivity window of the configuration is measured the
    same way: for a loop test [elapsed] milliseconds after the last
    setting of [setTimer], the clock being read modulo 2^32, the pass ends
    the configuration in power-off when 30000 ms or more have elapsed, and
    an idle pass before that changes nothing. *)
Theorem config_window_across_wrap (p : Poll) (l : Locals) (d : Device) (elapsed : Z) :
  0 <= elapsed < 2 ^ 32 ->
  t_now p = u32 (setTimer d + elapsed) ->
  (SET_TIMEOUT <= elapsed -> config_iter p l d = Exit (Ok (set_state STATE_POWER_OFF d)))
  /\ (elapsed < SET_TIMEOUT -> idle p -> config_iter p l d = Continue l d).
Proof.
  intros He Hp.
  assert (E : u32 (t_now p - setTimer d) = elapsed) by (rewrite Hp; apply u32_elapsed; exact He).
  split.
  - intros H. apply config_iter_timeout. rewrite E. exact H.
  - intros H Hi. apply config_iter_idle; [exact Hi | rewrite E; exact H].
Qed.

Lemma config_window_across_wrap_witness :
  config_iter (idlePoll (u32 (4294960000 + 30000))) (mkLocals 1 3 true)
              (set_setTimer 4294960000 (booted 3))
  = Exit (Ok (set_state STATE_POWER_OFF (set_setTimer 4294960000 (booted 3)))).
Proof.
  refine (proj1 (config_window_across_wrap (idlePoll (u32 (4294960000 + 30000)))
                   (mkLocals 1 3 true) (set_setTimer 4294960000 (booted 3)) 30000 _ _) _).
  - vm_compute. split; [discriminate | reflexivity].
  - reflexivity.
  - vm_compute. discriminate.
Defined.

End Timing.

(** ** Boot: both ways out of [setup()] *)

Lemma setup_checkbytes ok raw v rom :
  EEPROM_read EE_CHECKBYTE_1 (reached (setup ok raw v (power_on rom))) = 0xBA
  /\ EEPROM_read EE_CHECKBYTE_2 (reached (setup ok raw v (power_on rom))) = 0xDA.
Proof.
  destruct ((EEPROM_read EE_CHECKBYTE_1 (power_on rom) =? 0xBA)
            && (EEPROM_read EE_CHECKBYTE_2 (power_on rom) =? 0xDA)) eqn:E.
  - destruct (setup_initialised ok raw v rom E) as (_ & He & _).
    unfold EEPROM_read in *. rewrite He.
    apply andb_true_iff in E as [E1 E2]. apply Z.eqb_eq in E1, E2. cbn in E1, E2.
    split; assumption.
  - destruct (setup_uninitialised ok raw v rom E) as (_ & H1 & H2 & _). split; assumption.
Qed.

Section BootPaths.
Import Scenario.

(** X12.  [setup()] has two ways out and leaves the checkbytes in the
    store on both.  With the sensor found it returns in power-off, having
    played the start-up tune and nothing else, read the supply voltage
    and charged the first UV reading to the zero budget, with the sensor
    supply switched off.  With the sensor not found it never returns: it
    plays the one error tone, takes no reading and stays in the initial
    configuration state. *)
Theorem setup_two_ways_out (raw v : Z) (rom : gmap Z Z) :
  (exists d, setup true raw v (power_on rom) = Ok d
             /\ state d = STATE_POWER_OFF
             /\ tones (trace d) = playStartup
             /\ vccVoltage d = v
             /\ minutesToBurn d = consume F32.zero raw
             /\ pinLevel UV_SENSOR_PWR_PIN (trace d) = Some HIGH
             /\ EEPROM_read EE_CHECKBYTE_1 d = 0xBA /\ EEPROM_read EE_CHECKBYTE_2 d = 0xDA)
  /\ (exists d, setup false raw v (power_on rom) = Hang d
                /\ state d = STATE_CONFIG
                /\ tones (trace d) = [ToneAC NOTE_C5 10 500 false]
                /\ ~ In ReadUV (trace d) /\ ~ In ReadVcc (trace d)
                /\ minutesToBurn d = F32.zero
                /\ EEPROM_read EE_CHECKBYTE_1 d = 0xBA /\ EEPROM_read EE_CHECKBYTE_2 d = 0xDA).
Proof.
  split.
  - destruct (setup_checkbytes true raw v rom) as [C1 C2].
    revert C1 C2. unfold setup. destruct (_ && _); intros C1 C2;
      (eexists; split; [reflexivity|]);
      (split; [reflexivity|]); (split; [reflexivity|]); (split; [reflexivity|]);
      (split; [reflexivity|]); (split; [reflexivity|]); split; assumption.
  - destruct (setup_checkbytes false raw v rom) as [C1 C2].
    revert C1 C2. unfold setup. destruct (_ && _); intros C1 C2;
      (eexists; split; [reflexivity|]);
      (split; [reflexivity|]); (split; [reflexivity|]);
      (split; [cbn; intuition discriminate|]); (split; [cbn; intuition discriminate|]);
      (split; [reflexivity|]); split; assumption.
Qed.

End BootPaths.

(** ** Beep counts *)

Lemma tones_app t1 t2 : tones (t1 ++ t2) = tones t1 ++ tones t2.
Proof. unfold tones. apply List.filter_app. Qed.

Lemma tones_beeps n freq : tones (beeps n freq) = repeat (ToneAC freq 10 75 false) n.
Proof. induction n as [|n IH]; [reflexivity|]. cbn. f_equal. exact IH. Qed.

Section Beeps.
Import Scenario.

(** X13.  A commit that returns plays back the selection by ear: as many
    beeps of C5 as the SPF index, then as many beeps of C6 as the skin
    type, then the start tune; no other tone. *)
Theorem commit_plays_back_selection (l : Locals) (d d' : Device) :
  commit l d = Ok d' ->
  tones (trace d')
  = tones (trace d)
    ++ repeat (ToneAC NOTE_C5 10 75 false) (Z.to_nat (spfIndex l))
    ++ repeat (ToneAC NOTE_C6 10 75 false) (Z.to_nat (tempSkinType l))
    ++ playStart.
Proof.
  unfold commit. destruct (storeSkinType_cases l d) as (Hk & _ & _ & Hst).
  assert (Ht : tones (trace (storeSkinType l d)) = tones (trace d)).
  { destruct Hst as [[_ ->] | (_ & _ & ->)]; [reflexivity|].
    rewrite tones_app. cbn. apply app_nil_r. }
  set (d1 := storeSkinType l d) in *.
  destruct (calculateTimeToBurn _ _) as [d3|] eqn:C; [|discriminate].
  apply calculateTimeToBurn_Some in C as [b ->]. intros [= <-].
  cbn [trace emit set_state set_minutesToBurn].
  change (Delay 1000 :: countBeep (skinType d1) NOTE_C6 ++ [Delay 1000])
    with ([Delay 1000] ++ countBeep (skinType d1) NOTE_C6 ++ [Delay 1000]).
  unfold countBeep. rewrite !tones_app, !tones_beeps, Ht, Hk.
  change (tones [Delay 1000]) with (@nil Effect).
  rewrite app_nil_r, <- !app_assoc. reflexivity.
Qed.

Lemma commit_plays_back_selection_witness :
  tones (trace (reached (commit (mkLocals 3 2 false) (entered 3).2)))
  = tones (trace (entered 3).2)
    ++ repeat (ToneAC NOTE_C5 10 75 false) (Z.to_nat (spfIndex (mkLocals 3 2 false)))
    ++ repeat (ToneAC NOTE_C6 10 75 false) (Z.to_nat (tempSkinType (mkLocals 3 2 false)))
    ++ playStart.
Proof.
  apply (commit_plays_back_selection (mkLocals 3 2 false) (entered 3).2).
  vm_compute. reflexivity.
Defined.

End Beeps.

(** ** The alarm *)

Lemma sweep_sounds stop : Forall alarm_sound (sweep stop).
Proof.
  unfold sweep. apply List.Forall_forall. intros x Hx.
  apply in_flat_map in Hx as (k & Hk & Hx). apply in_seq in Hk.
  assert (Hb : (k < 251)%nat) by (destruct stop; lia).
  destruct Hx as [<- | [<- | []]]; unfold alarm_sound; [|exact I].
  right. split; [lia|].
  replace (500 + 10 * Z.of_nat k) with (500 + Z.of_nat k * 10) by lia.
  rewrite Z_mod_plus_full. reflexivity.
Qed.

Lemma alarm_rounds_sounds t rounds : forall d,
  exists delta, trace (reached (alarm_rounds t rounds d)) = trace d ++ delta
                /\ Forall alarm_sound delta.
Proof.
  induction rounds as [|a rounds IH]; intros d; cbn [alarm_rounds].
  - exists []. split; [symmetry; apply app_nil_r | constructor].
  - assert (Hround : Forall alarm_sound (sweep (sweep_press a) ++ [ToneAC 0 10 0 false])).
    { apply Forall_app. split; [apply sweep_sounds|].
      constructor; [cbn; left; reflexivity | constructor]. }
    destruct (_ <? MAX_ALARM_TIME).
    + destruct (_ || _).
      * eexists. split; [reflexivity | exact Hround].
      * match goal with |- context [alarm_rounds t rounds ?x] =>
          destruct (IH x) as (delta & E & F) end.
        exists ((sweep (sweep_press a) ++ [ToneAC 0 10 0 false]) ++ delta).
        split; [rewrite E; cbn [trace emit]; apply eq_sym, app_assoc|].
        apply Forall_app. split; assumption.
    + exists []. split; [symmetry; apply app_nil_r | constructor].
Qed.

Lemma alarm_rounds_Ok_iff t rounds : forall d,
  (exists d', alarm_rounds t rounds d = Ok d') <-> Exists (ends_alarm t) rounds.
Proof.
  induction rounds as [|a rounds IH]; intros d; cbn [alarm_rounds].
  - split; [intros [d' H]; discriminate | intros H; inversion H].
  - unfold ends_alarm at 1. destruct (Z.ltb_spec (u32 (t_round a - t)) MAX_ALARM_TIME) as [L|L].
    + destruct (sweep_pressed (sweep_press a) || pause_press a) eqn:P.
      * split; [intros _; left; unfold ends_alarm; right; exact P | intros _; eexists; reflexivity].
      * rewrite IH. split; [intros H; right; exact H|].
        intros H. inversion H as [? ? [A|A]|]; subst; [lia | congruence | assumption].
    + split; [intros _; left; unfold ends_alarm; left; exact L | intros _; eexists; reflexivity].
Qed.

Section Alarm.
Import Scenario.

(** X14.  Whatever the rounds and however it ends, [playAlarm] only
    sounds: what it adds to the trace are tones of the sweep, from 500 to
    3000 Hz in steps of 10, each followed by a delay of 1 ms, and the tone
    being stopped; it leaves the state, the budget, the store and the skin
    type alone. *)
Theorem playAlarm_only_sounds (t : Z) (rounds : list AlarmRound) (d : Device) :
  let d' := reached (playAlarm t rounds d) in
  (exists delta, trace d' = trace d ++ delta /\ Forall alarm_sound delta)
  /\ state d' = state d /\ minutesToBurn d' = minutesToBurn d
  /\ eeprom d' = eeprom d /\ skinType d' = skinType d.
Proof.
  cbv zeta. unfold playAlarm.
  destruct (alarm_rounds_frame t rounds d) as [Hs Hm].
  destruct (alarm_rounds_store t rounds d) as [He Hk].
  split; [apply alarm_rounds_sounds|]. repeat split; assumption.
Qed.

(** X15.  In the completed state a call of [loop()] returns exactly when
    one of the rounds of the alarm ends it, by its loop test finding
    15000 ms or more elapsed or by a press of the power button seen in the
    sweep or in the pause; and a call that returns leaves the device in
    power-off with the budget as it was. *)
Theorem completed_leads_to_power_off (e : Env) (d : Device) :
  state d = STATE_COMPLETED ->
  ((exists d', loop e d = Ok d') <-> Exists (ends_alarm (t_alarm e)) (alarm e))
  /\ (forall d', loop e d = Ok d' ->
                 state d' = STATE_POWER_OFF /\ minutesToBurn d' = minutesToBurn d).
Proof.
  intros Hs. unfold loop. rewrite Hs. unfold playAlarm.
  pose proof (alarm_rounds_Ok_iff (t_alarm e) (alarm e) d) as Hiff.
  destruct (alarm_rounds_frame (t_alarm e) (alarm e) d) as [_ Hm].
  destruct (alarm_rounds (t_alarm e) (alarm e) d) as [d1| | |]; cbn in *.
  - split.
    + rewrite <- Hiff. split; intros _; eexists; reflexivity.
    + intros d' [= <-]. split; [reflexivity | exact Hm].
  - split; [|intros d'; discriminate].
    rewrite <- Hiff. split; intros [d' H]; discriminate.
  - split; [|intros d'; discriminate].
    rewrite <- Hiff. split; intros [d' H]; discriminate.
  - split; [|intros d'; discriminate].
    rewrite <- Hiff. split; intros [d' H]; discriminate.
Qed.

Lemma completed_leads_to_power_off_witness :
  state (reached (loop (mkEnv 0 [] Quiet 330 0 1000
                              [mkAlarmRound 1000 None false; mkAlarmRound 1800 (Some 40%nat) false]
                              WDT_vect)
                       (set_state STATE_COMPLETED (running 0 5 F32.zero))))
  = STATE_POWER_OFF.
Proof.
  refine (proj1 (proj2 (completed_leads_to_power_off
           (mkEnv 0 [] Quiet 330 0 1000
                  [mkAlarmRound 1000 None false; mkAlarmRound 1800 (Some 40%nat) false]
                  WDT_vect)
           (set_state STATE_COMPLETED (running 0 5 F32.zero)) _) _ _)).
  - reflexivity.
  - vm_compute. reflexivity.
Defined.

End Alarm.

Section NoUVWitness.
Import Scenario.

Lemma session_without_uv_ends_in_power_off_witness :
  exists d', run (minutes 719 0 ++ minute 0) (running 1 0 (F32.of_Z 67)) = Ok d'
             /\ state d' = STATE_POWER_OFF /\ minutesToBurn d' = F32.of_Z 67.
Proof.
  refine (proj2 (session_without_uv_ends_in_power_off (running 1 0 (F32.of_Z 67))
                   (F32.of_Z 67) _ _)).
  - repeat split.
  - vm_compute. reflexivity.
Defined.

End NoUVWitness.

(** ** The sensor supply *)

Lemma pinLevel_snoc_cases pin t1 t2 :
  pinLevel pin (t1 ++ t2)
  = match pinLevel pin t2 with Some v => Some v | None => pinLevel pin t1 end.
Proof.
  unfold pinLevel. rewrite omap_app.
  destruct (omap _ t2) as [|x xs] using rev_ind.
  - rewrite app_nil_r. reflexivity.
  - rewrite app_assoc, !last_snoc. reflexivity.
Qed.

Lemma keeps_sensor_off_app a b :
  keeps_sensor_off a -> keeps_sensor_off b -> keeps_sensor_off (a ++ b).
Proof.
  unfold keeps_sensor_off. rewrite pinLevel_snoc_cases.
  destruct (pinLevel _ b); tauto.
Qed.

Lemma pinLevel_no_pin pin t :
  Forall (fun e => match e with PinWrite _ _ => False | _ => True end) t ->
  pinLevel pin t = None.
Proof.
  intros H. unfold pinLevel.
  replace (omap _ t) with (@nil bool); [reflexivity|].
  induction H as [|e t He _ IH]; [reflexivity|].
  destruct e; try contradiction; exact IH.
Qed.

Lemma no_pin_beeps n freq :
  Forall (fun e => match e with PinWrite _ _ => False | _ => True end) (beeps n freq).
Proof. induction n as [|n IH]; [constructor|]. cbn. repeat constructor. exact IH. Qed.

Lemma no_pin_alarm delta :
  Forall alarm_sound delta ->
  Forall (fun e => match e with PinWrite _ _ => False | _ => True end) delta.
Proof.
  apply List.Forall_impl. intros e. destruct e; try (intros _; exact I). intros [].
Qed.

Lemma extends_refl d : extends_sensor_off d d.
Proof. exists []. split; [symmetry; apply app_nil_r | discriminate]. Qed.

Lemma extends_trans d1 d2 d3 :
  extends_sensor_off d1 d2 -> extends_sensor_off d2 d3 -> extends_sensor_off d1 d3.
Proof.
  intros (a & Ea & Qa) (b & Eb & Qb). exists (a ++ b).
  split; [rewrite Eb, Ea; symmetry; apply app_assoc | apply keeps_sensor_off_app; assumption].
Qed.

Lemma extends_emit es d : keeps_sensor_off es -> extends_sensor_off d (emit es d).
Proof. intros Q. exists es. split; [reflexivity | exact Q]. Qed.

Lemma extends_same d d' : trace d' = trace d -> extends_sensor_off d d'.
Proof. intros E. exists []. split; [rewrite E; symmetry; apply app_nil_r | discriminate]. Qed.

Lemma extends_nextSpf l d : extends_sensor_off d (nextSpf l d).2.
Proof. unfold nextSpf. destruct (_ <? 6); apply extends_emit; discriminate. Qed.

Lemma extends_nextSkin l d : extends_sensor_off d (nextSkin l d).2.
Proof. unfold nextSkin. destruct (_ <? 6); apply extends_emit; discriminate. Qed.

Lemma extends_commit l d : extends_sensor_off d (reached (commit l d)).
Proof.
  unfold commit.
  assert (H1 : extends_sensor_off d (storeSkinType l d)).
  { unfold storeSkinType. destruct (_ =? _); [apply extends_refl|].
    exists [EEWrite EE_SKIN_TYPE (u8 (tempSkinType l))]. split; [reflexivity | discriminate]. }
  set (d1 := storeSkinType l d) in *.
  assert (H2 : extends_sensor_off d1
                 (emit (countBeep (spfIndex l) NOTE_C5 ++ [Delay 1000]
                        ++ countBeep (skinType d1) NOTE_C6 ++ [Delay 1000]) d1)).
  { apply extends_emit. unfold keeps_sensor_off. rewrite pinLevel_no_pin; [discriminate|].
    unfold countBeep. repeat (apply Forall_app; split);
      try apply no_pin_beeps; repeat constructor. }
  eapply extends_trans; [exact H1|]. eapply extends_trans; [exact H2|].
  destruct (calculateTimeToBurn _ _) as [d3|] eqn:C; [|apply extends_refl].
  apply calculateTimeToBurn_Some in C as [b ->]. cbn [reached].
  eexists. split; [reflexivity | discriminate].
Qed.

Lemma extends_config_iter p l d :
  match config_iter p l d with
  | Continue _ d' => extends_sensor_off d d'
  | Exit r => extends_sensor_off d (reached r)
  end.
Proof.
  unfold config_iter. destruct (_ <? SET_TIMEOUT); [|apply extends_same; reflexivity].
  assert (Hskin : forall l1 d1, extends_sensor_off d d1 ->
            match doSkinButton (skinBtn p) l1 d1 with
            | Continue _ d' => extends_sensor_off d d'
            | Exit r => extends_sensor_off d (reached r)
            end).
  { intros l1 d1 H1. unfold doSkinButton. destruct (skinBtn p) as [| |t]; try exact H1.
    pose proof (extends_nextSkin l1 (set_setTimer t d1)) as H2.
    destruct (nextSkin l1 (set_setTimer t d1)) as [l2 d2].
    eapply extends_trans; [exact H1|]. eapply extends_trans; [|exact H2].
    apply extends_same. reflexivity. }
  unfold doSetButton. destruct (setBtn p) as [| |tp td [[tr tu]|]].
  - apply Hskin, extends_refl.
  - apply Hskin, extends_refl.
  - destruct (_ <? LONG_CLICK_MS).
    + pose proof (extends_nextSpf l (set_setTimer tr (set_setTimer tp d))) as H2.
      destruct (nextSpf l (set_setTimer tr (set_setTimer tp d))) as [l2 d2].
      apply Hskin. eapply extends_trans; [|exact H2]. apply extends_same. reflexivity.
    + eapply extends_trans; [|apply extends_commit]. apply extends_same. reflexivity.
  - apply extends_same. reflexivity.
Qed.

Lemma extends_config_loop ps : forall l d,
  match config_loop ps l d with
  | Continue _ d' => extends_sensor_off d d'
  | Exit r => extends_sensor_off d (reached r)
  end.
Proof.
  induction ps as [|p ps IH]; intros l d; cbn; [apply extends_refl|].
  pose proof (extends_config_iter p l d) as H1.
  destruct (config_iter p l d) as [l1 d1|r]; [|exact H1].
  specialize (IH l1 d1).
  destruct (config_loop ps l1 d1); eapply extends_trans; eassumption.
Qed.

Lemma extends_doConfig t ps d : extends_sensor_off d (reached (doConfig t ps d)).
Proof.
  unfold doConfig, config_entry.
  match goal with |- context [config_loop ps ?l ?x] =>
    pose proof (extends_config_loop ps l x) as H;
    assert (H0 : extends_sensor_off d x) by (eexists; split; [reflexivity | discriminate]);
    destruct (config_loop ps l x) end;
    eapply extends_trans; eassumption.
Qed.

Lemma extends_sleepNow i d : extends_sensor_off d (sleepNow i d).
Proof.
  destruct i.
  - exists [Sleep]. split; [reflexivity | discriminate].
  - exists [Sleep; DetachInt0].
    split; [unfold sleepNow; cbn; rewrite <- app_assoc; reflexivity | discriminate].
Qed.

Lemma extends_sample e d : extends_sensor_off d (sample e d).
Proof.
  unfold sample, doMeasure. cbn. destruct (vcc e <=? MIN_BATT_VOLTS).
  - exists ([ReadVcc] ++ lowBatteryTone ++ measureEffects). split; [|discriminate].
    cbn. rewrite <- !app_assoc. reflexivity.
  - exists ([ReadVcc] ++ shortBeep ++ measureEffects). split; [|discriminate].
    cbn. rewrite <- !app_assoc. reflexivity.
Qed.

Lemma extends_checkPowerButton b d :
  exists d1, (checkPowerButton b d = Stay d1 \/ checkPowerButton b d = Off d1
              \/ checkPowerButton b d = Stuck d1)
             /\ trace d1 = trace d.
Proof.
  unfold checkPowerButton. destruct b as [| |t [u|]]; cbn.
  - exists d. split; [left; reflexivity | reflexivity].
  - exists d. split; [left; reflexivity | reflexivity].
  - destruct (_ <? LONG_CLICK_MS); eexists.
    + split; [left; reflexivity | reflexivity].
    + split; [right; left; reflexivity | reflexivity].
  - eexists. split; [right; right; reflexivity | reflexivity].
Qed.

Lemma extends_loop e d : extends_sensor_off d (reached (loop e d)).
Proof.
  unfold loop. destruct (state d).
  - cbn [reached]. eapply extends_trans; [|apply extends_emit with (es := [Delay 200]); discriminate].
    change (trace (set_state STATE_CONFIG ?x)) with (trace x).
    eapply extends_trans; [|apply extends_sleepNow].
    unfold powerDown. eexists. split; [cbn; rewrite <- app_assoc; reflexivity | discriminate].
  - pose proof (extends_doConfig (t_enter e) (polls e) d) as H.
    destruct (doConfig _ _ d) as [d1| | |]; cbn in *; try exact H.
    destruct (decide _); cbn [reached]; [exact H|].
    eapply extends_trans; [exact H|]. eapply extends_trans; [|apply extends_sleepNow].
    apply extends_emit. discriminate.
  - destruct (wdtSleepCount d =? 15).
    + cbv zeta. destruct (_ =? MAX_RUNNING_TIME).
      * eexists. split; [reflexivity | discriminate].
      * match goal with |- context [checkPowerButton ?b ?x] =>
          destruct (extends_checkPowerButton b x) as (d1 & [-> | [-> | ->]] & T1) end;
          cbn in T1.
        -- pose proof (extends_sample e d1) as H2.
           assert (H1 : extends_sensor_off d d1) by (apply extends_same; exact T1).
           destruct (F32.leb _ _); cbn [reached].
           ++ eapply extends_trans; [exact H1|]. eapply extends_trans; [exact H2|].
              eexists. split; [reflexivity | discriminate].
           ++ eapply extends_trans; [exact H1|]. eapply extends_trans; [exact H2|].
              eapply extends_trans; [|apply extends_sleepNow]. apply extends_same. reflexivity.
        -- cbn [reached]. eexists. split; [cbn; rewrite T1; reflexivity | discriminate].
        -- apply extends_same. exact T1.
    + destruct (extends_checkPowerButton (onOff e) d) as (d1 & [-> | [-> | ->]] & T1);
        cbn [reached].
      * eapply extends_trans; [|apply extends_sleepNow]. apply extends_same. exact T1.
      * apply extends_same. exact T1.
      * apply extends_same. exact T1.
  - unfold playAlarm.
    destruct (alarm_rounds_sounds (t_alarm e) (alarm e) d) as (delta & E & F).
    assert (H : extends_sensor_off d (reached (alarm_rounds (t_alarm e) (alarm e) d))).
    { exists delta. split; [exact E|]. unfold keeps_sensor_off.
      rewrite pinLevel_no_pin; [discriminate | apply no_pin_alarm; exact F]. }
    destruct (alarm_rounds _ _ d); cbn in *; exact H.
Qed.

Section SensorSupply.
Import Scenario.

(** X16.  The sensor is powered only inside a measurement.  With its
    supply switched off (pin 5 HIGH) before, it is switched off again
    after any calls of [loop()], whatever the inputs and however the last
    call ends; [setup()] that finds the sensor leaves the supply off, and
    the one that does not find it halts with the supply on. *)
Theorem sensor_supply_off_between_calls (es : list Env) (d : Device) :
  pinLevel UV_SENSOR_PWR_PIN (trace d) = Some HIGH ->
  pinLevel UV_SENSOR_PWR_PIN (trace (reached (run es d))) = Some HIGH
  /\ (forall raw v rom,
         pinLevel UV_SENSOR_PWR_PIN (trace (reached (setup true raw v (power_on rom))))
         = Some HIGH
         /\ pinLevel UV_SENSOR_PWR_PIN (trace (reached (setup false raw v (power_on rom))))
            = Some LOW).
Proof.
  intros H. split.
  - assert (E : extends_sensor_off d (reached (run es d))).
    { revert d H. induction es as [|e es IH]; intros d H; cbn; [apply extends_refl|].
      pose proof (extends_loop e d) as H1.
      destruct (loop e d) as [d1| | |] eqn:L; cbn in *; try exact H1.
      eapply extends_trans; [exact H1|]. apply IH.
      destruct H1 as (delta & -> & Q). rewrite pinLevel_snoc_cases.
      unfold keeps_sensor_off, LOW, HIGH in *.
      destruct (pinLevel _ delta) as [[]|]; congruence. }
    destruct E as (delta & -> & Q). rewrite pinLevel_snoc_cases.
    unfold keeps_sensor_off, LOW, HIGH in *. destruct (pinLevel _ delta) as [[]|]; congruence.
  - intros raw v rom. unfold setup. destruct (_ && _); split; reflexivity.
Qed.

Lemma sensor_supply_off_between_calls_witness :
  pinLevel UV_SENSOR_PWR_PIN
    (trace (reached (run (wakeEnv :: commitEnv :: minutes 2 300) (booted 3)))) = Some HIGH.
Proof.
  refine (proj1 (sensor_supply_off_between_calls
                   (wakeEnv :: commitEnv :: minutes 2 300) (booted 3) _)).
  vm_compute. reflexivity.
Defined.

End SensorSupply.
